(** * SequencerGUI: the serial protocol engine (serialcommunication.cpp)

    A shallow embedding of [SerialCommunication]: the packet codec
    ([createSequencePacketForPoint], the start and stop packets), the
    incoming frame decoder ([handleReadyRead]) and the streaming state
    machine ([startStream], [pauseStream], [resumeStream],
    [startImmediate], [stop], [incrementCurPoint], [arduinoBootFinished]).

    Conventions.
    - A [QByteArray] is a list of bytes, each byte seen as an unsigned
      value in 0..255 held in [Z]; a store into a byte array keeps the
      low eight bits.
    - C++ [int] values are [Z]; the only arithmetic on them is [+ 1],
      [- 1], [>> 8] and the two kinds of "and".
    - The engine borrows a [Sequence] through a pointer: sequences live
      in a store indexed by address and the engine holds an address.
    - Member functions are computations in a state monad over the whole
      world (engine fields, sequence store, observable effects) that can
      end normally, by a thrown [SerialCommunicationException], by
      [qFatal], or in undefined behaviour (a null or dangling pointer).
    - [qDebug] output is diagnostic only and is left out. *)

From Stdlib Require Import ZArith List Bool Ascii String Lia.
From stdpp Require Import base gmap list strings.
Import ListNotations.

Local Open Scope Z_scope.

(** ** Bytes *)

Definition QByteArray := list Z.

Definition chr (c : ascii) : Z := Z.of_nat (nat_of_ascii c).

(** Storing an integer into a [char] slot keeps its low eight bits. *)
Definition to_char (x : Z) : Z := x mod 256.

(** [static_cast<unsigned char>] of a byte. *)
Definition to_uchar (x : Z) : Z := x mod 256.

(** [static_cast<unsigned int>] on a 32-bit target. *)
Definition to_uint (x : Z) : Z := x mod 2 ^ 32.

(** C++ [a && b] on integers: both operands are compared with zero and
    the result is a [bool]. *)
Definition logical_and (a b : Z) : bool := negb (a =? 0) && negb (b =? 0).

(** A [bool] converted to an integer type. *)
Definition bool_to_int (b : bool) : Z := if b then 1 else 0.

(** [QByteArray::mid(pos, len)] *)
Definition mid (b : QByteArray) (pos len : Z) : QByteArray :=
  take (Z.to_nat len) (drop (Z.to_nat pos) b).

(** [QByteArray::remove(pos, len)] for [pos = 0]: nothing happens on an
    empty array. *)
Definition remove0 (b : QByteArray) (len : nat) : QByteArray := drop len b.

(** [QByteArray::size()] *)
Definition size (b : QByteArray) : Z := Z.of_nat (length b).

(** ** The Sequence collaborator *)

(** Modelled from the spec: [SequencePoint] is declared in a header that
    is not among the sources; the spec gives it a duration, a time to
    target and one value per controlled dimension. *)
Record SequencePoint := mkPoint {
  duration : Z;
  timeToTarget : Z;
  point : list Z
}.

(** Modelled from the spec: the class [Sequence] is not among the
    sources. It owns an ordered list of points, a cursor and the point
    dimensionality, and notifies its subscribers when the cursor changes.
    [subscribed] says whether the engine's [curPointChanged] slot is
    connected to this sequence's notification. *)
Record Sequence := mkSequence {
  points : list SequencePoint;
  cursor : Z;
  dim : Z;
  subscribed : bool
}.

(** Modelled from the spec: [Sequence::numPoints()], the total count. *)
Definition numPoints (s : Sequence) : Z := Z.of_nat (length (points s)).

(** Modelled from the spec: [Sequence::pointDim()]. *)
Definition pointDim (s : Sequence) : Z := dim s.

(** Modelled from the spec: [Sequence::curPoint()]. *)
Definition curPoint (s : Sequence) : Z := cursor s.

(** Modelled from the spec: [Sequence::point()], the point under the
    cursor; there is none when the cursor is outside the list. *)
Definition currentPoint (s : Sequence) : option SequencePoint :=
  if cursor s <? 0 then None else points s !! Z.to_nat (cursor s).

Definition with_cursor (i : Z) (s : Sequence) : Sequence :=
  {| points := points s; cursor := i; dim := dim s; subscribed := subscribed s |}.

Definition with_subscribed (b : bool) (s : Sequence) : Sequence :=
  {| points := points s; cursor := cursor s; dim := dim s; subscribed := b |}.

(** ** Packet codec *)

(** [static_cast<unsigned int>(v) & 0xFF] stored into a byte. *)
Definition encode_value (v : Z) : Z := to_char (Z.land (to_uint v) 255).

(** The loop [for (c = 0; c < p.point.size(); ++c) pkt[5 + c] = ...]. *)
Definition fill_values (vals : list Z) (pkt : QByteArray) : QByteArray :=
  fold_left
    (fun pkt c => <[(5 + c)%nat := encode_value (vals !!! c)]> pkt)
    (seq 0 (length vals)) pkt.

Definition createSequencePacketForPoint (p : SequencePoint) : QByteArray :=
  let pkt := replicate (5 + length (point p)) 0 in
  (* Packet type *)
  let pkt := <[0%nat := chr "P"]> pkt in
  (* Point duration *)
  let pkt := <[1%nat := to_char (bool_to_int (logical_and (Z.shiftr (duration p) 8) 255))]> pkt in
  let pkt := <[2%nat := to_char (Z.land (duration p) 255)]> pkt in
  (* Point time to target *)
  let pkt := <[3%nat := to_char (bool_to_int (logical_and (Z.shiftr (timeToTarget p) 8) 255))]> pkt in
  let pkt := <[4%nat := to_char (Z.land (timeToTarget p) 255)]> pkt in
  (* Values *)
  fill_values (point p) pkt.

(** The stop packet, [QByteArray("H")]. *)
Definition stopPacket : QByteArray := [chr "H"].

(** The parser of the point packet's fixed layout, as the wire format
    describes it (tag, two big-endian 16-bit fields, one byte per
    value); it is the reading side the encoder is compared with. *)
Definition parsePoint (pkt : QByteArray) : option SequencePoint :=
  match pkt with
  | t :: dh :: dl :: th :: tl :: vals =>
      if t =? chr "P"
      then Some {| duration := dh * 256 + dl; timeToTarget := th * 256 + tl; point := vals |}
      else None
  | _ => None
  end.

(** ** Engine state *)

Definition addr := nat.

Record QSerialPort := mkPort {
  isOpen : bool;
  portName : string;
  baudRate : Z
}.

Record SerialCommunication := mkEngine {
  m_serialPort : QSerialPort;
  m_sequence : option addr;          (* [nullptr] is [None] *)
  m_isStreamMode : bool;
  m_isImmediateMode : bool;
  m_arduinoBoot : bool;              (* [QTimer::isActive()] *)
  m_incomingData : QByteArray;
  m_paused : bool;
  m_hardwareQueueFull : bool
}.

Inductive ErrorText :=
  | UnknownPacketType (b : Z)
  | PortError (description : string).

Inductive Signal :=
  | streamStarted
  | streamStopped
  | debugMessage (msg : QByteArray)
  | streamError (text : ErrorText).

(** What the outside sees: bytes handed to [QSerialPort::write] and
    signals emitted, in the order they happen. *)
Inductive Effect :=
  | Write (data : QByteArray)
  | Emit (s : Signal).

Record World := mkWorld {
  self : SerialCommunication;
  objects : gmap addr Sequence;
  trace : list Effect
}.

Inductive SerialCommunicationException :=
  | Exception (reason : string).

Inductive outcome (A : Type) :=
  | Normal (a : A)
  | Thrown (e : SerialCommunicationException)
  | Fatal
  | Undefined.
Arguments Normal {A} a.
Arguments Thrown {A} e.
Arguments Fatal {A}.
Arguments Undefined {A}.

(** ** The monad of member functions *)

Definition M (A : Type) := World -> outcome A * World.

Definition ret {A} (a : A) : M A := fun w => (Normal a, w).

Definition bind {A B} (m : M A) (k : A -> M B) : M B :=
  fun w =>
    match m w with
    | (Normal a, w') => k a w'
    | (Thrown e, w') => (Thrown e, w')
    | (Fatal, w') => (Fatal, w')
    | (Undefined, w') => (Undefined, w')
    end.

Declare Scope cpp_scope.
Delimit Scope cpp_scope with cpp.
Notation "'let*' x ':=' m 'in' k" := (bind m (fun x => k))
  (at level 10, x name, m at level 100, k at level 200, only parsing) : cpp_scope.
Notation "'let*' ' p ':=' m 'in' k" := (bind m (fun x => match x with p => k end))
  (at level 10, p pattern, m at level 100, k at level 200, only parsing) : cpp_scope.
Notation "m ;;; k" := (bind m (fun _ => k))
  (at level 100, k at level 200, right associativity, only parsing) : cpp_scope.
Local Open Scope cpp_scope.

Definition throw {A} (reason : string) : M A := fun w => (Thrown (Exception reason), w).
Definition qFatal {A} : M A := fun w => (Fatal, w).
Definition undefined {A} : M A := fun w => (Undefined, w).

Definition this : M SerialCommunication := fun w => (Normal (self w), w).

Definition update (f : SerialCommunication -> SerialCommunication) : M unit :=
  fun w => (Normal tt, {| self := f (self w); objects := objects w; trace := trace w |}).

Definition effect (e : Effect) : M unit :=
  fun w => (Normal tt, {| self := self w; objects := objects w; trace := trace w ++ [e] |}).

Definition emit (s : Signal) : M unit := effect (Emit s).

Definition when (b : bool) (m : M unit) : M unit := if b then m else ret tt.

(** Field assignments. *)
Definition set_serialPort (p : QSerialPort) (e : SerialCommunication) :=
  mkEngine p (m_sequence e) (m_isStreamMode e) (m_isImmediateMode e)
           (m_arduinoBoot e) (m_incomingData e) (m_paused e) (m_hardwareQueueFull e).
Definition set_sequence (a : option addr) (e : SerialCommunication) :=
  mkEngine (m_serialPort e) a (m_isStreamMode e) (m_isImmediateMode e)
           (m_arduinoBoot e) (m_incomingData e) (m_paused e) (m_hardwareQueueFull e).
Definition set_isStreamMode (b : bool) (e : SerialCommunication) :=
  mkEngine (m_serialPort e) (m_sequence e) b (m_isImmediateMode e)
           (m_arduinoBoot e) (m_incomingData e) (m_paused e) (m_hardwareQueueFull e).
Definition set_isImmediateMode (b : bool) (e : SerialCommunication) :=
  mkEngine (m_serialPort e) (m_sequence e) (m_isStreamMode e) b
           (m_arduinoBoot e) (m_incomingData e) (m_paused e) (m_hardwareQueueFull e).
Definition set_arduinoBoot (b : bool) (e : SerialCommunication) :=
  mkEngine (m_serialPort e) (m_sequence e) (m_isStreamMode e) (m_isImmediateMode e)
           b (m_incomingData e) (m_paused e) (m_hardwareQueueFull e).
Definition set_incomingData (d : QByteArray) (e : SerialCommunication) :=
  mkEngine (m_serialPort e) (m_sequence e) (m_isStreamMode e) (m_isImmediateMode e)
           (m_arduinoBoot e) d (m_paused e) (m_hardwareQueueFull e).
Definition set_paused (b : bool) (e : SerialCommunication) :=
  mkEngine (m_serialPort e) (m_sequence e) (m_isStreamMode e) (m_isImmediateMode e)
           (m_arduinoBoot e) (m_incomingData e) b (m_hardwareQueueFull e).
Definition set_hardwareQueueFull (b : bool) (e : SerialCommunication) :=
  mkEngine (m_serialPort e) (m_sequence e) (m_isStreamMode e) (m_isImmediateMode e)
           (m_arduinoBoot e) (m_incomingData e) (m_paused e) b.

(** Modelled from the spec: the three mode getters are inline members of
    the class declaration, which is not among the sources. A session is
    active when the engine is in stream mode or in immediate mode. *)
Definition isStreamMode (e : SerialCommunication) : bool := m_isStreamMode e.
Definition isImmediateMode (e : SerialCommunication) : bool := m_isImmediateMode e.
Definition isStreaming (e : SerialCommunication) : bool :=
  m_isStreamMode e || m_isImmediateMode e.

(** Following [m_sequence]: a null pointer, or one to no live sequence,
    is undefined behaviour. *)
Definition deref_sequence : M (addr * Sequence) :=
  fun w =>
    match m_sequence (self w) with
    | Some a =>
        match objects w !! a with
        | Some s => (Normal (a, s), w)
        | None => (Undefined, w)
        end
    | None => (Undefined, w)
    end.

Definition store (a : addr) (s : Sequence) : M unit :=
  fun w => (Normal tt, {| self := self w; objects := <[a := s]> (objects w); trace := trace w |}).

(** [m_sequence->point()] *)
Definition sequence_point : M SequencePoint :=
  let* '(_, s) := deref_sequence in
  match currentPoint s with
  | Some p => ret p
  | None => undefined
  end.

(** ** Member functions *)

(** [sendData]: the count returned by [write] only selects a diagnostic
    line, so the call is recorded and nothing else happens. *)
Definition sendData (dataToSend : QByteArray) : M unit := effect (Write dataToSend).

Definition curPointChanged : M unit :=
  let* e := this in
  (* Safety check that we are in immediate mode *)
  if negb (isImmediateMode e) then ret tt
  else
    (* Sending the current point *)
    let* p := sequence_point in
    sendData (createSequencePacketForPoint p).

(** Modelled from the spec: [Sequence::setCurPoint(i)] moves the cursor
    and, when the cursor changes, notifies the subscribers; the only
    subscriber in this model is the engine's [curPointChanged] slot. *)
Definition setCurPoint (a : addr) (i : Z) : M unit :=
  fun w =>
    match objects w !! a with
    | None => (Undefined, w)
    | Some s =>
        if cursor s =? i then (Normal tt, w)
        else (store a (with_cursor i s) ;;; when (subscribed s) curPointChanged) w
    end.

Definition clear_flags_and_buffer : M unit :=
  (* Resetting flags *)
  update (set_paused false) ;;;
  update (set_isStreamMode false) ;;;
  update (set_isImmediateMode false) ;;;
  update (set_hardwareQueueFull false) ;;;
  update (set_incomingData []).

Definition stop : M unit :=
  let* e := this in
  if negb (isStreaming e) then throw "No stream to stop"
  else
    (* Sending packet to stop streaming *)
    sendData stopPacket ;;;
    (* Disconnecting all signals from the sequence to us *)
    let* '(a, s) := deref_sequence in
    store a (with_subscribed false s) ;;;
    (* Setting the sequence to nullptr *)
    update (set_sequence None) ;;;
    (* If we were in stream mode, emitting signal *)
    let* e := this in
    when (isStreamMode e) (emit streamStopped) ;;;
    clear_flags_and_buffer.

Definition incrementCurPoint : M unit :=
  let* '(a, s) := deref_sequence in
  let cur := curPoint s in
  if cur =? numPoints s - 1 then
    (* We are at the last point, stopping *)
    stop
  else setCurPoint a (cur + 1).

Definition arduinoBootFinished : M unit :=
  let* e := this in
  (* If we are streaming, sending data, otherwise doing nothing *)
  when (isStreaming e) (
    (* First sending the start packet *)
    let* startPacket :=
      (if isStreamMode e then ret [chr "S"]
       else if isImmediateMode e then ret [chr "I"]
       else qFatal) in
    (* Adding the number of dimension of point to the start packet *)
    let* '(_, s) := deref_sequence in
    let startPacket := startPacket ++ [to_char (bool_to_int (logical_and (pointDim s) 255))] in
    sendData startPacket ;;;
    (* Now sending the first sequence packet *)
    let* p := sequence_point in
    sendData (createSequencePacketForPoint p) ;;;
    (* If we are in stream mode, emit the signal and move the current point forward *)
    let* e := this in
    when (isStreamMode e) (emit streamStarted ;;; incrementCurPoint)).

(** [QSerialPort::close()] followed by [clearError()]. *)
Definition close_port (e : SerialCommunication) : SerialCommunication :=
  set_serialPort
    {| isOpen := false; portName := portName (m_serialPort e); baudRate := baudRate (m_serialPort e) |} e.

(** [device_opens] is the result of [QSerialPort::open]. *)
Definition openSerial (port : string) (baud : Z) (device_opens : bool) : M bool :=
  let* e := this in
  if isStreaming e then throw "Cannot open port while a sequence is being streamed"
  else
    (* Closing the old port *)
    when (isOpen (m_serialPort e)) (update close_port) ;;;
    (* Setting the name and baud rate of the port *)
    update (set_serialPort {| isOpen := false; portName := port; baudRate := baud |}) ;;;
    (* Trying to open the port *)
    if negb device_opens then ret false
    else
      update (set_serialPort {| isOpen := true; portName := port; baudRate := baud |}) ;;;
      (* Giving time to Arduino to boot *)
      update (set_arduinoBoot true) ;;;
      ret true.

Definition closeSerial : M unit :=
  let* e := this in
  if isStreaming e then throw "Cannot close port while a sequence is being streamed"
  else when (isOpen (m_serialPort e)) (update close_port).

Definition startStream (sequence : addr) (startFromCurrent : bool) : M unit :=
  let* e := this in
  if negb (isOpen (m_serialPort e)) then
    throw "Cannot start streaming with a closed serial port"
  else if isStreaming e then
    throw "Cannot start a new stream while a sequence is already being streamed"
  else
    update (set_incomingData []) ;;;
    (* Resetting the pause flag and setting the m_is*Mode flags *)
    update (set_paused false) ;;;
    update (set_isStreamMode true) ;;;
    update (set_isImmediateMode false) ;;;
    update (set_hardwareQueueFull false) ;;;
    (* Saving the sequence and resetting the current point if needed *)
    update (set_sequence (Some sequence)) ;;;
    when (negb startFromCurrent) (setCurPoint sequence 0) ;;;
    (* If the timer is running we have to wait *)
    let* e := this in
    when (negb (m_arduinoBoot e)) arduinoBootFinished.

Definition pauseStream : M unit :=
  let* e := this in
  if negb (isStreamMode e) then throw "Cannot pause when no sequence is being streamed"
  else update (set_paused true).

Definition resumeStream : M unit :=
  let* e := this in
  if negb (isStreamMode e) then throw "Cannot pause when no sequence is being streamed"
  else if negb (m_paused e) then ret tt
  else
    (* Resuming streaming *)
    update (set_paused false) ;;;
    (* Sending a sequence point if the hardware queue is not full *)
    when (negb (m_hardwareQueueFull e)) (
      let* p := sequence_point in
      sendData (createSequencePacketForPoint p) ;;;
      incrementCurPoint).

Definition startImmediate (sequence : addr) : M unit :=
  let* e := this in
  if negb (isOpen (m_serialPort e)) then
    throw "Cannot start streaming with a closed serial port"
  else if isStreaming e then
    throw "Cannot start a new stream while a sequence is already being streamed"
  else
    update (set_incomingData []) ;;;
    (* Setting the m_is*Mode flags *)
    update (set_isStreamMode false) ;;;
    update (set_isImmediateMode true) ;;;
    (* Saving the sequence *)
    update (set_sequence (Some sequence)) ;;;
    (* Connecting the signal of the sequence telling us when the current point changes *)
    let* '(a, s) := deref_sequence in
    store a (with_subscribed true s) ;;;
    let* e := this in
    when (negb (m_arduinoBoot e)) arduinoBootFinished.

(** The single-shot timer [m_arduinoBoot] expiring. *)
Definition arduinoBoot_timeout : M unit :=
  let* e := this in
  when (m_arduinoBoot e) (update (set_arduinoBoot false) ;;; arduinoBootFinished).

(** [handleError]: [is_error] is [error != QSerialPort::NoError]. *)
Definition handleError (is_error : bool) (errorString : string) : M unit :=
  when is_error (emit (streamError (PortError ("Error streaming: " ++ errorString)))).

(** ** The incoming frame decoder *)

Definition remove_first : M unit :=
  update (fun e => set_incomingData (remove0 (m_incomingData e) 1) e).

(** One turn of the body of the [while] loop of [handleReadyRead], entered
    with a buffer whose first byte is [c]; the result is the value of
    [partialPacket] after it. *)
Definition loop_body (c : Z) : M bool :=
  let* e := this in
  if isStreamMode e && (c =? chr "N") then
    (* Buffer not full, send the current point and move the current point forward *)
    update (set_hardwareQueueFull false) ;;;
    let* p := sequence_point in
    sendData (createSequencePacketForPoint p) ;;;
    incrementCurPoint ;;;
    (* Removing packet from our buffer *)
    remove_first ;;;
    ret false
  else if isStreamMode e && (c =? chr "F") then
    (* Buffer full *)
    update (set_hardwareQueueFull true) ;;;
    (* Removing packet from our buffer *)
    remove_first ;;;
    ret false
  else if c =? chr "D" then
    (* Debug packet, emitting signal if the message is complete *)
    if size (m_incomingData e) <? 2 then ret true
    else
      (* Reading message length *)
      let msgLength := to_uchar (m_incomingData e !!! 1%nat) in
      (* Checking we have the whole message *)
      if size (m_incomingData e) <? 2 + msgLength then ret true
      else
        (* We have the whole message *)
        let msg := mid (m_incomingData e) 2 msgLength in
        emit (debugMessage msg) ;;;
        ret false
  else
    emit (streamError (UnknownPacketType c)) ;;;
    (* Removing the unknown character *)
    remove_first ;;;
    ret false.

(** The [while (!(m_incomingData.isEmpty() || partialPacket))] loop. It
    has no bound in the source, so the model counts turns: [None] means
    the loop is still running after [fuel] turns. *)
Fixpoint decode_loop (fuel : nat) (partialPacket : bool) (w : World)
  : option (outcome unit * World) :=
  match fuel with
  | O => None
  | S fuel' =>
      match m_incomingData (self w), partialPacket with
      | c :: _, false =>
          match loop_body c w with
          | (Normal partialPacket', w') => decode_loop fuel' partialPacket' w'
          | (Thrown e, w') => Some (Thrown e, w')
          | (Fatal, w') => Some (Fatal, w')
          | (Undefined, w') => Some (Undefined, w')
          end
      | _, _ => Some (Normal tt, w)
      end
  end.

(** [handleReadyRead]; [readAll] is what [m_serialPort.readAll()] returns. *)
Definition handleReadyRead (fuel : nat) (readAll : QByteArray) (w : World)
  : option (outcome unit * World) :=
  (* Getting data and adding to the buffer *)
  let (_, w) := update (fun e => set_incomingData (m_incomingData e ++ readAll) e) w in
  decode_loop fuel false w.

(** ** Vocabulary of the statements *)

(** The engine is in a stream-mode session over the sequence [s] that
    lives at address [a]. *)
Definition Streaming (w : World) (a : addr) (s : Sequence) : Prop :=
  m_isStreamMode (self w) = true /\
  m_isImmediateMode (self w) = false /\
  m_sequence (self w) = Some a /\
  objects w !! a = Some s.

(** The engine fields as [stop] leaves them. *)
Definition idle_of (e : SerialCommunication) : SerialCommunication :=
  mkEngine (m_serialPort e) None false false (m_arduinoBoot e) [] false false.

(** The public calls that have a precondition. *)
Inductive Call :=
  | OpenSerial (port : string) (baud : Z) (device_opens : bool)
  | CloseSerial
  | StartStream (sequence : addr) (startFromCurrent : bool)
  | StartImmediate (sequence : addr)
  | PauseStream
  | ResumeStream
  | Stop.

Definition call (c : Call) : M unit :=
  match c with
  | OpenSerial port baud device_opens => let* _ := openSerial port baud device_opens in ret tt
  | CloseSerial => closeSerial
  | StartStream a b => startStream a b
  | StartImmediate a => startImmediate a
  | PauseStream => pauseStream
  | ResumeStream => resumeStream
  | Stop => stop
  end.

(** When a call is made outside its precondition: the transport is
    opened or closed during a session, a session is started during
    another or on a closed port, pause and resume are called outside
    stream mode, stop is called without a session. *)
Definition violates (c : Call) (e : SerialCommunication) : bool :=
  match c with
  | OpenSerial _ _ _ | CloseSerial => isStreaming e
  | StartStream _ _ | StartImmediate _ => isStreaming e || negb (isOpen (m_serialPort e))
  | PauseStream | ResumeStream => negb (isStreamMode e)
  | Stop => negb (isStreaming e)
  end.

(** The head of the buffer is a debug frame whose bytes are all there. *)
Definition complete_debug_frame (buf : QByteArray) : bool :=
  match buf with
  | c :: _ => (c =? chr "D") && negb (size buf <? 2) && negb (size buf <? 2 + to_uchar (buf !!! 1%nat))
  | [] => false
  end.

(** The head of the buffer is a debug frame that still misses bytes. *)
Definition incomplete_debug_frame (buf : QByteArray) : bool :=
  match buf with
  | c :: _ => (c =? chr "D") && ((size buf <? 2) || (size buf <? 2 + to_uchar (buf !!! 1%nat)))
  | [] => false
  end.

(** Computations that leave the engine fields alone, however they end. *)
Definition keeps_engine {A} (m : M A) : Prop :=
  forall w, self (snd (m w)) = self w.

(** ** Sample worlds *)

Module Sample.

Definition point0 : SequencePoint := mkPoint 512 300 [1; 2; 255].
Definition point1 : SequencePoint := mkPoint 10 20 [4; 5; 6].
Definition point2 : SequencePoint := mkPoint 700 65535 [0; 128; 9].

Definition seq3 (cur : Z) : Sequence := mkSequence [point0; point1; point2] cur 3 false.

Definition port : QSerialPort := mkPort true "ttyACM0" 115200.

(** A fresh engine on an open port whose boot delay has elapsed. *)
Definition idle : World :=
  mkWorld (mkEngine port None false false false [] false false) {[ 7%nat := seq3 0 ]} [].

(** A stream-mode session over [seq3 cur], nothing buffered. *)
Definition streaming (cur : Z) (paused queueFull : bool) : World :=
  mkWorld (mkEngine port (Some 7%nat) true false false [] paused queueFull)
          {[ 7%nat := seq3 cur ]} [].

(** An immediate-mode session over [seq3 0]. *)
Definition immediate : World :=
  mkWorld (mkEngine port (Some 7%nat) false true false [] false false)
          {[ 7%nat := mkSequence [point0; point1; point2] 0 3 true ]} [].

(** The debug frame ['D', 3, 'a', 'b', 'c']. *)
Definition debug_abc : QByteArray := [chr "D"; 3; chr "a"; chr "b"; chr "c"].

End Sample.

(** ** Construction, destruction, consistency *)

(** The constructor: no sequence, both mode flags down, an empty buffer,
    pause and queue-full down; the port is default-constructed, hence
    closed, and the timer is not running. The name and baud rate of a
    default-constructed port are not fixed by this file. *)
Definition constructed (name : string) (baud : Z) : SerialCommunication :=
  mkEngine (mkPort false name baud) None false false false [] false false.

(** [try { m } catch (...) { }] *)
Definition try_catch_all (m : M unit) : M unit :=
  fun w =>
    match m w with
    | (Thrown _, w') => (Normal tt, w')
    | r => r
    end.

(** The destructor: [stop()] and then [closeSerial()], each in its own
    [try] block. *)
Definition destructor : M unit :=
  try_catch_all stop ;;;
  try_catch_all closeSerial.

(** The relations between the fields that the member functions keep:
    at most one mode; a sequence is held exactly during a session; the
    pause and queue-full flags are up only in stream mode; a session
    runs on an open port. *)
Definition consistent (e : SerialCommunication) : bool :=
  negb (m_isStreamMode e && m_isImmediateMode e)
  && eqb (isStreaming e) (match m_sequence e with Some _ => true | None => false end)
  && implb (m_paused e) (m_isStreamMode e)
  && implb (m_hardwareQueueFull e) (m_isStreamMode e)
  && implb (isStreaming e) (isOpen (m_serialPort e)).

(** The engine is in an immediate-mode session over the sequence [s]
    that lives at address [a]. *)
Definition Immediate (w : World) (a : addr) (s : Sequence) : Prop :=
  m_isStreamMode (self w) = false /\
  m_isImmediateMode (self w) = true /\
  m_sequence (self w) = Some a /\
  objects w !! a = Some s.

(** The engine has no session and its port is open. *)
Definition Ready (w : World) : Prop :=
  isStreaming (self w) = false /\ isOpen (m_serialPort (self w)) = true.

(** An outcome that is a return or a thrown exception. *)
Definition defined {A} (o : outcome A) : bool :=
  match o with
  | Normal _ | Thrown _ => true
  | Fatal | Undefined => false
  end.

(** The signal for an unknown byte. *)
Definition unknown (b : Z) : Effect := Emit (streamError (UnknownPacketType b)).

(** The write of a point packet. *)
Definition sent (p : SequencePoint) : Effect := Write (createSequencePacketForPoint p).

(** The engine as [startStream] configures it. *)
Definition stream_engine (e : SerialCommunication) (a : addr) : SerialCommunication :=
  mkEngine (m_serialPort e) (Some a) true false (m_arduinoBoot e) [] false false.

(** The engine as [startImmediate] configures it: the pause and
    queue-full flags are not assigned. *)
Definition immediate_engine (e : SerialCommunication) (a : addr) : SerialCommunication :=
  mkEngine (m_serialPort e) (Some a) false true (m_arduinoBoot e) []
           (m_paused e) (m_hardwareQueueFull e).

Module Scenario.

(** An idle engine on an open port; [boot] says whether the boot timer
    is still running. *)
Definition ready (boot : bool) (cur : Z) : World :=
  mkWorld (mkEngine Sample.port None false false boot [] false false)
          {[ 7%nat := Sample.seq3 cur ]} [].

(** A sequence of one point. *)
Definition seq1 : Sequence := mkSequence [Sample.point1] 0 3 false.

Definition ready1 : World :=
  mkWorld (mkEngine Sample.port None false false false [] false false)
          {[ 7%nat := seq1 ]} [].

(** The immediate-mode session of [Sample.immediate], seen as a sequence. *)
Definition seq3_subscribed : Sequence :=
  mkSequence [Sample.point0; Sample.point1; Sample.point2] 0 3 true.

End Scenario.

(** A computation that, started in a consistent engine, leaves a
    consistent engine when it returns or throws. *)
Definition preserves_consistency {A} (m : M A) : Prop :=
  forall w,
    consistent (self w) = true ->
    match m w with
    | (Normal _, w') | (Thrown _, w') => consistent (self w') = true
    | _ => True
    end.

(** Whether a byte is the queue-full token. *)
Definition is_F (b : Z) : bool := b =? chr "F".

(** ** Proof automation *)

(** Unfolds the member functions and the operations of the monad. *)
Ltac unfold_cpp :=
  unfold call, openSerial, closeSerial, startStream, startImmediate, pauseStream,
    resumeStream, stop, incrementCurPoint, setCurPoint, curPointChanged,
    clear_flags_and_buffer, sequence_point, deref_sequence, remove_first,
    sendData, emit, effect, store, update, when, this, throw, bind, ret,
    isStreaming, isStreamMode, isImmediateMode in *.

(** Splits a world, and its engine, into fields. *)
Ltac open_world w :=
  let e := fresh "e" in
  destruct w as [e ? ?]; destruct e; cbn [self objects trace
    m_serialPort m_sequence m_isStreamMode m_isImmediateMode m_arduinoBoot
    m_incomingData m_paused m_hardwareQueueFull] in *.

Ltac open_streaming H :=
  let Hs := fresh "Hstream" in
  let Hi := fresh "Himm" in
  let Hp := fresh "Hptr" in
  let Ho := fresh "Hobj" in
  destruct H as (Hs & Hi & Hp & Ho).

(** Runs the monad: unfolds its operations, the field assignments and
    the projections, and reduces. *)
Ltac run_cpp :=
  cbv beta iota zeta delta
    [bind ret this update effect emit sendData store when throw qFatal undefined
     deref_sequence sequence_point remove_first clear_flags_and_buffer
     isStreamMode isImmediateMode isStreaming
     set_serialPort set_sequence set_isStreamMode set_isImmediateMode
     set_arduinoBoot set_incomingData set_paused set_hardwareQueueFull
     idle_of remove0
     self objects trace m_serialPort m_sequence m_isStreamMode m_isImmediateMode
     m_arduinoBoot m_incomingData m_paused m_hardwareQueueFull
     negb andb orb fst snd] in *;
  cbn [drop] in *.

(** * Properties *)

(** ** The packet codec *)

Section Codec.

Lemma fill_values_spec (pre : QByteArray) (done rest : list Z) :
  fold_left
    (fun pkt c => <[(length pre + c)%nat := encode_value ((done ++ rest) !!! c)]> pkt)
    (seq (length done) (length rest))
    (pre ++ map encode_value done ++ replicate (length rest) 0)
  = pre ++ map encode_value (done ++ rest).
Proof.
  revert done. induction rest as [|v rest IH]; intros done.
  - simpl. by rewrite !app_nil_r.
  - cbn [length seq fold_left replicate].
    rewrite insert_app_r_alt by lia.
    replace (length pre + length done - length pre)%nat
      with (length (map encode_value done) + 0)%nat by (rewrite length_map; lia).
    rewrite insert_app_r. cbn [insert list_insert].
    rewrite list_lookup_total_middle by reflexivity.
    specialize (IH (done ++ [v])).
    rewrite length_app, Nat.add_1_r, map_app, <- !app_assoc in IH.
    cbn [map app] in IH. exact IH.
Qed.

(** The packet as one list: what the index-by-index stores add up to. *)
Lemma createSequencePacketForPoint_layout (p : SequencePoint) :
  createSequencePacketForPoint p =
    [ chr "P";
      to_char (bool_to_int (logical_and (Z.shiftr (duration p) 8) 255));
      to_char (Z.land (duration p) 255);
      to_char (bool_to_int (logical_and (Z.shiftr (timeToTarget p) 8) 255));
      to_char (Z.land (timeToTarget p) 255) ]
    ++ map encode_value (point p).
Proof.
  unfold createSequencePacketForPoint, fill_values.
  cbn [Nat.add replicate insert list_insert].
  set (pre := [chr "P"; _; _; _; _]).
  exact (fill_values_spec pre [] (point p)).
Qed.

(** [(x >> 8) && 0xFF] is a truth value: the byte is 1 as soon as the
    high byte of [x] is not zero. *)
Lemma high_byte_is_a_flag (x : Z) :
  0 <= x < 65536 ->
  to_char (bool_to_int (logical_and (Z.shiftr x 8) 255)) = if x <? 256 then 0 else 1.
Proof.
  intros Hx. unfold logical_and, bool_to_int, to_char.
  rewrite Z.shiftr_div_pow2 by lia. change (2 ^ 8) with 256.
  destruct (Z.ltb_spec x 256) as [Hlt | Hge].
  - rewrite Z.div_small by lia. reflexivity.
  - assert (1 <= x / 256) by (apply Z.div_le_lower_bound; lia).
    destruct (Z.eqb_spec (x / 256) 0); [lia | reflexivity].
Qed.

Lemma low_byte (x : Z) : 0 <= x -> to_char (Z.land x 255) = x mod 256.
Proof.
  intros Hx. unfold to_char. change 255 with (Z.ones 8).
  rewrite Z.land_ones by lia. change (2 ^ 8) with 256.
  apply Z.mod_mod. lia.
Qed.

Lemma encode_value_byte (v : Z) : 0 <= v <= 255 -> encode_value v = v.
Proof.
  intros Hv. unfold encode_value, to_uint.
  rewrite (Z.mod_small v) by lia.
  rewrite low_byte by lia. apply Z.mod_small. lia.
Qed.

Lemma encode_values_bytes (vals : list Z) :
  Forall (fun v => 0 <= v <= 255) vals -> map encode_value vals = vals.
Proof.
  induction 1 as [|v vals Hv _ IH]; [reflexivity|].
  cbn [map]. by rewrite encode_value_byte, IH.
Qed.

(** What the fixed-layout parser reads back from an encoded point: the
    low bytes and the values are exact, each 16-bit field keeps only
    its low byte and whether its high byte was zero. *)
Lemma parsePoint_createSequencePacketForPoint (p : SequencePoint) :
  0 <= duration p < 65536 ->
  0 <= timeToTarget p < 65536 ->
  Forall (fun v => 0 <= v <= 255) (point p) ->
  parsePoint (createSequencePacketForPoint p) =
    Some {| duration := (if duration p <? 256 then 0 else 256) + duration p mod 256;
            timeToTarget := (if timeToTarget p <? 256 then 0 else 256) + timeToTarget p mod 256;
            point := point p |}.
Proof.
  intros Hd Ht Hv. rewrite createSequencePacketForPoint_layout.
  rewrite !high_byte_is_a_flag, !low_byte, encode_values_bytes by (lia || done).
  cbn [app parsePoint]. rewrite Z.eqb_refl.
  destruct (duration p <? 256), (timeToTarget p <? 256); reflexivity.
Qed.

(** The round trip holds for the points whose two 16-bit fields are
    below 512. *)
Lemma parsePoint_roundtrip_below_512 (p : SequencePoint) :
  0 <= duration p < 512 ->
  0 <= timeToTarget p < 512 ->
  Forall (fun v => 0 <= v <= 255) (point p) ->
  parsePoint (createSequencePacketForPoint p) = Some p.
Proof.
  intros Hd Ht Hv.
  rewrite parsePoint_createSequencePacketForPoint by (lia || done).
  destruct p as [d t vs]; cbn [duration timeToTarget point] in *.
  f_equal. f_equal.
  - destruct (Z.ltb_spec d 256); Z.div_mod_to_equations; lia.
  - destruct (Z.ltb_spec t 256); Z.div_mod_to_equations; lia.
Qed.

(** [pointDim() && 0xFF] appended as a byte is 0 or 1. *)
Lemma dimension_byte_is_a_flag (d : Z) :
  to_char (bool_to_int (logical_and d 255)) = if d =? 0 then 0 else 1.
Proof. unfold logical_and. by destruct (d =? 0). Qed.

End Codec.

(** C3 (the code departs from the claim). For the point with duration
    512, time to target 300 and values 1, 2, 255, all within the claimed
    ranges, byte 1 of the packet is 1 although the high byte of the
    duration is 2, and byte 3 is 1 where the high byte of the time to
    target happens to be 1; parsing the fixed layout gives back duration
    256, not 512. The statement [(p.duration >> 8) && 0xFF] computes a
    truth value where a mask was meant. *)
Theorem createSequencePacketForPoint_loses_high_byte :
  createSequencePacketForPoint Sample.point0 = [chr "P"; 1; 0; 1; 44; 1; 2; 255] /\
  Z.shiftr (duration Sample.point0) 8 = 2 /\
  parsePoint (createSequencePacketForPoint Sample.point0) = Some (mkPoint 256 300 [1; 2; 255]) /\
  parsePoint (createSequencePacketForPoint Sample.point0) <> Some Sample.point0.
Proof. repeat split; (reflexivity || discriminate). Qed.

(** C4 (the code departs from the claim). When the boot gate fires in
    a stream-mode session over a sequence of dimensionality 3, the start
    packet is 'S' followed by the byte 1, while [3 & 0xFF] is 3:
    [pointDim() && 0xFF] is a truth value. *)
Theorem arduinoBootFinished_start_packet_loses_dimension :
  pointDim (Sample.seq3 0) = 3 /\
  Z.land (pointDim (Sample.seq3 0)) 255 = 3 /\
  trace (snd (arduinoBootFinished (Sample.streaming 0 false false))) !! 0%nat
    = Some (Write [chr "S"; 1]) /\
  trace (snd (arduinoBootFinished Sample.immediate)) !! 0%nat
    = Some (Write [chr "I"; 1]).
Proof. repeat split; vm_compute; reflexivity. Qed.

(** ** The streaming state machine *)

Section StateMachine.

(** [stop] in a stream-mode session: the stop packet, the signal, and
    the engine back to idle; the sequence keeps its cursor. *)
Lemma stop_streaming (w : World) (a : addr) (s : Sequence) :
  Streaming w a s ->
  stop w =
    (Normal tt,
     {| self := idle_of (self w);
        objects := <[a := with_subscribed false s]> (objects w);
        trace := trace w ++ [Write stopPacket; Emit streamStopped] |}).
Proof.
  intros H. open_streaming H. open_world w. subst.
  unfold_cpp. cbn. rewrite Hobj. cbn.
  by rewrite <- app_assoc.
Qed.

(** Moving the cursor of the streamed sequence to another index sends
    nothing: the engine's slot, were it connected, does nothing outside
    immediate mode. *)
Lemma setCurPoint_streaming (w : World) (a : addr) (s : Sequence) (i : Z) :
  Streaming w a s ->
  i <> cursor s ->
  setCurPoint a i w =
    (Normal tt,
     {| self := self w;
        objects := <[a := with_cursor i s]> (objects w);
        trace := trace w |}).
Proof.
  intros H Hi. open_streaming H. open_world w. subst.
  unfold_cpp. cbn. rewrite Hobj.
  destruct (Z.eqb_spec (cursor s) i); [congruence|].
  cbn. by destruct (subscribed s).
Qed.

(** The cursor advance in a stream-mode session: [stop] at the last
    index, the next index otherwise. *)
Lemma incrementCurPoint_streaming (w : World) (a : addr) (s : Sequence) :
  Streaming w a s ->
  incrementCurPoint w =
    if cursor s =? numPoints s - 1 then
      (Normal tt,
       {| self := idle_of (self w);
          objects := <[a := with_subscribed false s]> (objects w);
          trace := trace w ++ [Write stopPacket; Emit streamStopped] |})
    else
      (Normal tt,
       {| self := self w;
          objects := <[a := with_cursor (cursor s + 1) s]> (objects w);
          trace := trace w |}).
Proof.
  intros H.
  pose proof (stop_streaming w a s H) as Hstop.
  pose proof (setCurPoint_streaming w a s (cursor s + 1) H ltac:(lia)) as Hset.
  open_streaming H. unfold incrementCurPoint, bind, deref_sequence, curPoint.
  rewrite Hptr, Hobj. by destruct (cursor s =? numPoints s - 1).
Qed.

(** The three callers of the cursor advance. Each reaches it in a
    stream-mode session over the same sequence: [resumeStream] when
    paused with the queue not full, after the point under the cursor is
    written; [arduinoBootFinished] after the start packet, the first
    point and [streamStarted]; the 'N' turn of the decoder is
    [loop_body_N] below. *)
Lemma resumeStream_sends_and_advances (w : World) (a : addr) (s : Sequence) (p : SequencePoint) :
  Streaming w a s ->
  currentPoint s = Some p ->
  m_paused (self w) = true ->
  m_hardwareQueueFull (self w) = false ->
  resumeStream w =
    incrementCurPoint
      {| self := set_paused false (self w);
         objects := objects w;
         trace := trace w ++ [Write (createSequencePacketForPoint p)] |}.
Proof.
  intros H Hp Hpaused Hq. open_streaming H. open_world w. subst.
  unfold resumeStream. run_cpp. rewrite Hobj. run_cpp. rewrite Hp. reflexivity.
Qed.

Lemma arduinoBootFinished_streaming (w : World) (a : addr) (s : Sequence) (p : SequencePoint) :
  Streaming w a s ->
  currentPoint s = Some p ->
  arduinoBootFinished w =
    incrementCurPoint
      {| self := self w;
         objects := objects w;
         trace := trace w ++
                  [Write [chr "S"; to_char (bool_to_int (logical_and (pointDim s) 255))];
                   Write (createSequencePacketForPoint p);
                   Emit streamStarted] |}.
Proof.
  intros H Hp. open_streaming H. open_world w. subst.
  unfold arduinoBootFinished. run_cpp. rewrite Hobj. run_cpp.
  rewrite Hobj. run_cpp. rewrite Hp. run_cpp.
  by rewrite <- !app_assoc.
Qed.

Lemma currentPoint_in_range (s : Sequence) (p : SequencePoint) :
  currentPoint s = Some p -> 0 <= cursor s < numPoints s.
Proof.
  unfold currentPoint, numPoints.
  destruct (Z.ltb_spec (cursor s) 0); [discriminate|].
  intros Hp. apply lookup_lt_Some in Hp. lia.
Qed.

End StateMachine.

(** C5. In a stream-mode session whose cursor is a valid index of a
    non-empty sequence, the cursor advance at the last index runs [stop]:
    the 'H' packet is written, [streamStopped] is emitted, the engine is
    idle and the cursor is left where it was; at any other index the
    cursor becomes the next index, which is again a valid index, and
    nothing is written or emitted. *)
Theorem incrementCurPoint_at_boundary (w : World) (a : addr) (s : Sequence) :
  Streaming w a s ->
  0 <= cursor s < numPoints s ->
  if cursor s =? numPoints s - 1 then
    incrementCurPoint w =
      (Normal tt,
       {| self := idle_of (self w);
          objects := <[a := with_subscribed false s]> (objects w);
          trace := trace w ++ [Write [chr "H"]; Emit streamStopped] |})
    /\ isStreaming (idle_of (self w)) = false
    /\ cursor (with_subscribed false s) = cursor s
  else
    incrementCurPoint w =
      (Normal tt,
       {| self := self w;
          objects := <[a := with_cursor (cursor s + 1) s]> (objects w);
          trace := trace w |})
    /\ 0 <= cursor (with_cursor (cursor s + 1) s) < numPoints (with_cursor (cursor s + 1) s).
Proof.
  intros H Hrange. rewrite (incrementCurPoint_streaming w a s H).
  destruct (Z.eqb_spec (cursor s) (numPoints s - 1)) as [Hlast | Hnot].
  - repeat split; reflexivity.
  - split; [reflexivity|]. unfold numPoints in *. cbn. lia.
Qed.

Lemma incrementCurPoint_at_boundary_sample :
  (Streaming (Sample.streaming 2 false false) 7%nat (Sample.seq3 2) /\
   incrementCurPoint (Sample.streaming 2 false false) =
     (Normal tt,
      {| self := idle_of (self (Sample.streaming 2 false false));
         objects := <[7%nat := with_subscribed false (Sample.seq3 2)]>
                      (objects (Sample.streaming 2 false false));
         trace := [Write [chr "H"]; Emit streamStopped] |})) /\
  (Streaming (Sample.streaming 0 false false) 7%nat (Sample.seq3 0) /\
   incrementCurPoint (Sample.streaming 0 false false) =
     (Normal tt,
      {| self := self (Sample.streaming 0 false false);
         objects := <[7%nat := Sample.seq3 1]> (objects (Sample.streaming 0 false false));
         trace := [] |})).
Proof.
  assert (Hlast : Streaming (Sample.streaming 2 false false) 7%nat (Sample.seq3 2))
    by (repeat split; reflexivity).
  assert (Hfirst : Streaming (Sample.streaming 0 false false) 7%nat (Sample.seq3 0))
    by (repeat split; reflexivity).
  split; (split; [assumption|]).
  - exact (proj1 (incrementCurPoint_at_boundary _ _ _ Hlast
                    ltac:(vm_compute; split; discriminate || reflexivity))).
  - exact (proj1 (incrementCurPoint_at_boundary _ _ _ Hfirst
                    ltac:(vm_compute; split; discriminate || reflexivity))).
Defined.

(** C7. In stream mode with the pause flag down, [resumeStream] returns
    at once: the whole world (engine fields, sequences, what was written
    and emitted) is the one it was called in. *)
Theorem resumeStream_not_paused (w : World) :
  m_isStreamMode (self w) = true ->
  m_paused (self w) = false ->
  resumeStream w = (Normal tt, w).
Proof.
  intros Hs Hp. unfold resumeStream, bind, this, isStreamMode.
  rewrite Hs, Hp. reflexivity.
Qed.

Lemma resumeStream_not_paused_sample :
  resumeStream (Sample.streaming 1 false false) = (Normal tt, Sample.streaming 1 false false).
Proof.
  apply resumeStream_not_paused; reflexivity.
Defined.

(** C8. A call made outside its precondition throws a
    [SerialCommunicationException] and the world it was made in is left
    as it was: no field of the engine, no sequence, nothing written or
    emitted. *)
Theorem precondition_violation_throws (c : Call) (w : World) :
  violates c (self w) = true ->
  exists reason : string, call c w = (Thrown (Exception reason), w).
Proof.
  intros Hv. open_world w.
  destruct c; cbn [violates] in Hv; unfold_cpp; cbn in *.
  - rewrite Hv. eauto.
  - rewrite Hv. eauto.
  - destruct (isOpen m_serialPort0); cbn in *; [|eauto].
    rewrite orb_false_r in Hv. rewrite Hv. eauto.
  - destruct (isOpen m_serialPort0); cbn in *; [|eauto].
    rewrite orb_false_r in Hv. rewrite Hv. eauto.
  - destruct m_isStreamMode0; [discriminate | eauto].
  - destruct m_isStreamMode0; [discriminate | eauto].
  - apply negb_true_iff in Hv. rewrite Hv. eauto.
Qed.

Lemma precondition_violation_throws_sample :
  exists reason : string,
    call (StartImmediate 7%nat) (Sample.streaming 0 false false)
    = (Thrown (Exception reason), Sample.streaming 0 false false).
Proof.
  apply precondition_violation_throws. reflexivity.
Defined.

(** ** The incoming frame decoder *)

Section Decoder.

(** A turn on 'N' in a stream-mode session: the flag is cleared, the
    point under the cursor is written, the cursor advances (or the
    session stops), and the byte is removed from what the buffer then
    holds. *)
Lemma loop_body_N (w : World) (a : addr) (s : Sequence) (p : SequencePoint) (rest : QByteArray) :
  Streaming w a s ->
  currentPoint s = Some p ->
  m_incomingData (self w) = chr "N" :: rest ->
  loop_body (chr "N") w =
    if cursor s =? numPoints s - 1 then
      (Normal false,
       {| self := idle_of (self w);
          objects := <[a := with_subscribed false s]> (objects w);
          trace := trace w ++ [Write (createSequencePacketForPoint p);
                               Write [chr "H"]; Emit streamStopped] |})
    else
      (Normal false,
       {| self := set_incomingData rest (set_hardwareQueueFull false (self w));
          objects := <[a := with_cursor (cursor s + 1) s]> (objects w);
          trace := trace w ++ [Write (createSequencePacketForPoint p)] |}).
Proof.
  intros H Hp Hbuf.
  assert (Hinc := incrementCurPoint_streaming
            {| self := set_hardwareQueueFull false (self w);
               objects := objects w;
               trace := trace w ++ [Write (createSequencePacketForPoint p)] |} a s).
  open_streaming H. open_world w. subst.
  specialize (Hinc ltac:(by repeat split)).
  unfold loop_body. run_cpp. rewrite Z.eqb_refl. run_cpp.
  rewrite Hobj, Hp. run_cpp. rewrite Hinc.
  destruct (cursor s =? numPoints s - 1); run_cpp; [|reflexivity].
  by rewrite <- app_assoc.
Qed.

(** A turn on 'F' in stream mode: the flag is raised and the byte
    removed; nothing is written or emitted. *)
Lemma loop_body_F (w : World) (rest : QByteArray) :
  m_isStreamMode (self w) = true ->
  m_incomingData (self w) = chr "F" :: rest ->
  loop_body (chr "F") w =
    (Normal false,
     {| self := set_incomingData rest (set_hardwareQueueFull true (self w));
        objects := objects w;
        trace := trace w |}).
Proof.
  intros Hs Hbuf. open_world w. subst.
  unfold loop_body. run_cpp. reflexivity.
Qed.

(** A turn on a complete debug frame, in any mode: the message is
    emitted, and the buffer is the one the turn started with. *)
Lemma loop_body_complete_debug_frame (w : World) (c : Z) (rest : QByteArray) :
  m_incomingData (self w) = c :: rest ->
  complete_debug_frame (c :: rest) = true ->
  loop_body c w =
    (Normal false,
     {| self := self w;
        objects := objects w;
        trace := trace w ++
                 [Emit (debugMessage (mid (c :: rest) 2 (to_uchar ((c :: rest) !!! 1%nat))))] |}).
Proof.
  intros Hbuf Hc. open_world w. subst.
  unfold complete_debug_frame in Hc.
  apply andb_true_iff in Hc as [Hc Hlen]. apply andb_true_iff in Hc as [Hc Hsz].
  apply Z.eqb_eq in Hc. subst c.
  apply negb_true_iff in Hlen, Hsz.
  unfold loop_body. run_cpp.
  change (chr "D" =? chr "N") with false. change (chr "D" =? chr "F") with false.
  rewrite Z.eqb_refl, Hsz, Hlen. by destruct m_isStreamMode0.
Qed.

(** After [n] turns on a complete debug frame the loop is where it
    started, with [n] more copies of the message emitted. *)
Lemma decode_loop_complete_debug_frame_turns (n fuel : nat) (w : World) :
  complete_debug_frame (m_incomingData (self w)) = true ->
  decode_loop (n + fuel) false w =
    decode_loop fuel false
      {| self := self w;
         objects := objects w;
         trace := trace w ++
                  replicate n (Emit (debugMessage
                    (mid (m_incomingData (self w)) 2
                         (to_uchar (m_incomingData (self w) !!! 1%nat))))) |}.
Proof.
  revert w. induction n as [|n IH]; intros w Hc.
  - cbn [Nat.add replicate]. rewrite app_nil_r. by destruct w.
  - destruct (m_incomingData (self w)) as [|c rest] eqn:Hbuf; [discriminate|].
    cbn [Nat.add decode_loop]. rewrite Hbuf.
    rewrite (loop_body_complete_debug_frame w c rest Hbuf Hc).
    rewrite IH by (cbn [self]; by rewrite Hbuf).
    cbn [self objects trace replicate]. rewrite Hbuf.
    by rewrite <- app_assoc.
Qed.

(** The loop never leaves a complete debug frame: whatever the number
    of turns allowed, it is still running. *)
Lemma decode_loop_complete_debug_frame_diverges (fuel : nat) (w : World) :
  complete_debug_frame (m_incomingData (self w)) = true ->
  decode_loop fuel false w = None.
Proof.
  intros Hc.
  replace fuel with (fuel + 0)%nat by lia.
  by rewrite decode_loop_complete_debug_frame_turns.
Qed.

End Decoder.


(** ** What the decode pass does guarantee *)

Section Pass.

Lemma bind_Normal_inv {A B} (m : M A) (k : A -> M B) (w w' : World) (b : B) :
  bind m k w = (Normal b, w') ->
  exists a w1, m w = (Normal a, w1) /\ k a w1 = (Normal b, w').
Proof.
  unfold bind. destruct (m w) as [[a| | |] w1]; try discriminate. eauto.
Qed.

Lemma keeps_engine_bind {A B} (m : M A) (k : A -> M B) :
  keeps_engine m -> (forall a, keeps_engine (k a)) -> keeps_engine (bind m k).
Proof.
  intros Hm Hk w. unfold bind. specialize (Hm w).
  destruct (m w) as [[a| | |] w1]; cbn [snd] in *; try assumption.
  by rewrite Hk.
Qed.

Lemma keeps_engine_sequence_point : keeps_engine sequence_point.
Proof.
  intros w. unfold sequence_point, deref_sequence, bind, ret, undefined.
  destruct (m_sequence (self w)) as [a|]; [|reflexivity].
  destruct (objects w !! a) as [s|]; [|reflexivity].
  by destruct (currentPoint s).
Qed.

Lemma keeps_engine_curPointChanged : keeps_engine curPointChanged.
Proof.
  intros w. unfold curPointChanged, bind, this, ret.
  destruct (negb (isImmediateMode (self w))); [reflexivity|].
  pose proof (keeps_engine_sequence_point w) as Hp.
  destruct (sequence_point w) as [[p| | |] w1]; cbn [snd] in *; assumption.
Qed.

Lemma keeps_engine_setCurPoint (a : addr) (i : Z) : keeps_engine (setCurPoint a i).
Proof.
  intros w. unfold setCurPoint.
  destruct (objects w !! a) as [s|]; [|reflexivity].
  destruct (cursor s =? i); [reflexivity|].
  unfold bind, store, when. destruct (subscribed s); [|reflexivity].
  apply (keeps_engine_curPointChanged {| self := self w; objects := _; trace := trace w |}).
Qed.

(** A [stop] that returns leaves the buffer empty. *)
Lemma stop_clears_buffer (w w' : World) :
  stop w = (Normal tt, w') -> m_incomingData (self w') = [].
Proof.
  unfold stop, bind at 1, this. destruct (negb (isStreaming (self w))); [discriminate|].
  intros H.
  apply bind_Normal_inv in H as (? & ? & _ & H).
  apply bind_Normal_inv in H as ([a s] & ? & _ & H).
  repeat (apply bind_Normal_inv in H as (? & ? & _ & H)).
  unfold clear_flags_and_buffer in H.
  repeat (apply bind_Normal_inv in H as (? & ? & _ & H)).
  unfold update in H. by inversion H.
Qed.

(** A cursor advance that returns has emptied the buffer (it stopped)
    or has not touched it. *)
Lemma incrementCurPoint_buffer (w w' : World) :
  incrementCurPoint w = (Normal tt, w') ->
  m_incomingData (self w') = [] \/ m_incomingData (self w') = m_incomingData (self w).
Proof.
  unfold incrementCurPoint, bind at 1, deref_sequence.
  destruct (m_sequence (self w)) as [a|]; [|discriminate].
  destruct (objects w !! a) as [s|]; [|discriminate].
  destruct (curPoint s =? numPoints s - 1); intros H.
  - left. by apply stop_clears_buffer with w.
  - right. pose proof (keeps_engine_setCurPoint a (curPoint s + 1) w) as Hk.
    rewrite H in Hk. cbn [snd] in Hk. by rewrite Hk.
Qed.

(** A turn on a debug frame that still misses bytes only raises
    [partialPacket]. *)
Lemma loop_body_incomplete_debug_frame (w : World) (c : Z) (rest : QByteArray) :
  m_incomingData (self w) = c :: rest ->
  incomplete_debug_frame (c :: rest) = true ->
  loop_body c w = (Normal true, w).
Proof.
  intros Hbuf Hc. open_world w. subst.
  unfold incomplete_debug_frame in Hc.
  apply andb_true_iff in Hc as [Hc Hlen]. apply Z.eqb_eq in Hc. subst c.
  unfold loop_body. run_cpp.
  change (chr "D" =? chr "N") with false. change (chr "D" =? chr "F") with false.
  rewrite Z.eqb_refl.
  destruct (size (chr "D" :: rest) <? 2); [by destruct m_isStreamMode0|].
  cbn [orb] in Hlen. rewrite Hlen. by destruct m_isStreamMode0.
Qed.

(** A turn that returns leaves [partialPacket] raised only on an
    incomplete debug frame, and then changes nothing; a turn on a byte
    other than 'D' removes that byte or finds the buffer emptied. *)
Lemma loop_body_turn (w w' : World) (c : Z) (rest : QByteArray) (partialPacket : bool) :
  m_incomingData (self w) = c :: rest ->
  loop_body c w = (Normal partialPacket, w') ->
  (partialPacket = true -> incomplete_debug_frame (c :: rest) = true /\ w' = w) /\
  (c <> chr "D" ->
   partialPacket = false /\
   (m_incomingData (self w') = rest \/ m_incomingData (self w') = [])).
Proof.
  intros Hbuf. unfold loop_body, bind at 1, this.
  destruct (isStreamMode (self w) && (c =? chr "N")).
  { (* 'N' *)
    intros H.
    apply bind_Normal_inv in H as (? & w1 & H1 & H).
    apply bind_Normal_inv in H as (p & w2 & H2 & H).
    apply bind_Normal_inv in H as (? & w3 & H3 & H).
    apply bind_Normal_inv in H as ([] & w4 & H4 & H).
    apply bind_Normal_inv in H as (? & w5 & H5 & H).
    inversion H; subst; clear H.
    split; [discriminate|]. intros _. split; [reflexivity|].
    pose proof (keeps_engine_sequence_point w1) as K2. rewrite H2 in K2. cbn [snd] in K2.
    unfold update in H1. inversion H1; subst; clear H1.
    unfold sendData, effect in H3. inversion H3; subst; clear H3.
    apply incrementCurPoint_buffer in H4.
    unfold remove_first, update in H5. inversion H5; subst; clear H5.
    cbn [self m_incomingData set_incomingData remove0] in *.
    rewrite K2 in H4. cbn [m_incomingData set_hardwareQueueFull] in H4.
    rewrite Hbuf in H4. destruct H4 as [-> | ->]; [by right | by left]. }
  destruct (isStreamMode (self w) && (c =? chr "F")).
  { (* 'F' *)
    intros H. unfold bind, update, remove_first, ret in H.
    inversion H; subst; clear H.
    split; [discriminate|]. intros _. split; [reflexivity|].
    left. cbn. by rewrite Hbuf. }
  destruct (Z.eqb_spec c (chr "D")) as [-> | Hc].
  { (* 'D' *)
    unfold incomplete_debug_frame. rewrite Z.eqb_refl, Hbuf. cbn [andb].
    destruct (size (chr "D" :: rest) <? 2).
    - intros H. inversion H; subst. split; [by split|]. by intros [].
    - cbn [orb]. destruct (size (chr "D" :: rest) <? 2 + _).
      + intros H. inversion H; subst. split; [by split|]. by intros [].
      + intros H. unfold bind, emit, effect, ret in H. inversion H; subst.
        split; [discriminate|]. by intros []. }
  (* any other byte *)
  intros H. unfold bind, emit, effect, update, remove_first, ret in H.
  inversion H; subst; clear H.
  split; [discriminate|]. intros _. split; [reflexivity|].
  left. cbn. by rewrite Hbuf.
Qed.

(** When the loop ends normally, the buffer is empty or its head is a
    debug frame that still misses bytes. *)
Lemma decode_loop_end (fuel : nat) (partialPacket : bool) (w w' : World) :
  (partialPacket = true -> incomplete_debug_frame (m_incomingData (self w)) = true) ->
  decode_loop fuel partialPacket w = Some (Normal tt, w') ->
  m_incomingData (self w') = [] \/
  incomplete_debug_frame (m_incomingData (self w')) = true.
Proof.
  revert partialPacket w. induction fuel as [|fuel IH]; intros pp w Hpp; [discriminate|].
  cbn [decode_loop].
  destruct (m_incomingData (self w)) as [|c rest] eqn:Hbuf.
  - intros H. inversion H; subst. by left.
  - destruct pp.
    + intros H. inversion H; subst. right. rewrite Hbuf. by apply Hpp.
    + destruct (loop_body c w) as [[pp'| | |] w1] eqn:Hturn; try discriminate.
      apply IH. intros ->.
      destruct (loop_body_turn w w1 c rest true Hbuf Hturn) as [Hpartial _].
      destruct (Hpartial eq_refl) as [Hinc ->]. by rewrite Hbuf.
Qed.

Lemma decode_loop_S (fuel : nat) (partialPacket : bool) (w : World) :
  decode_loop (S fuel) partialPacket w =
    match m_incomingData (self w), partialPacket with
    | c :: _, false =>
        match loop_body c w with
        | (Normal partialPacket', w') => decode_loop fuel partialPacket' w'
        | (Thrown e, w') => Some (Thrown e, w')
        | (Fatal, w') => Some (Fatal, w')
        | (Undefined, w') => Some (Undefined, w')
        end
    | _, _ => Some (Normal tt, w)
    end.
Proof. reflexivity. Qed.

(** A buffer without any 'D' is worked off in at most one turn per
    byte: the loop ends, in any mode and whatever the turns do. *)
Lemma decode_loop_terminates_without_debug (n : nat) (partialPacket : bool) (w : World) :
  (length (m_incomingData (self w)) <= n)%nat ->
  Forall (fun b => b <> chr "D") (m_incomingData (self w)) ->
  exists r, decode_loop (S n) partialPacket w = Some r.
Proof.
  revert partialPacket w. induction n as [|n IH]; intros pp w Hlen Hall.
  - destruct (m_incomingData (self w)) as [|c rest] eqn:Hbuf; [|cbn in Hlen; lia].
    cbn [decode_loop]. rewrite Hbuf. eauto.
  - rewrite decode_loop_S.
    destruct (m_incomingData (self w)) as [|c rest] eqn:Hbuf; [eauto|].
    destruct pp; [eauto|].
    destruct (loop_body c w) as [[pp'| | |] w1] eqn:Hturn; eauto.
    apply Forall_cons in Hall as [Hc Hrest].
    destruct (loop_body_turn w w1 c rest pp' Hbuf Hturn) as [_ Hstep].
    destruct (Hstep Hc) as [-> [Hb | Hb]].
    + apply IH; rewrite Hb; [cbn in Hlen; lia | assumption].
    + apply IH; rewrite Hb; [cbn; lia | constructor].
Qed.

(** A debug frame that arrives one byte per read: no pass emits
    anything while bytes are missing, and each pass ends with the bytes
    received so far still buffered. *)
Example debug_frame_byte_by_byte :
  let w1 := {| self := set_incomingData [chr "D"] (self Sample.idle);
               objects := objects Sample.idle; trace := [] |} in
  let w2 := {| self := set_incomingData [chr "D"; 3] (self Sample.idle);
               objects := objects Sample.idle; trace := [] |} in
  let w3 := {| self := set_incomingData [chr "D"; 3; chr "a"] (self Sample.idle);
               objects := objects Sample.idle; trace := [] |} in
  let w4 := {| self := set_incomingData [chr "D"; 3; chr "a"; chr "b"] (self Sample.idle);
               objects := objects Sample.idle; trace := [] |} in
  handleReadyRead 2 [chr "D"] Sample.idle = Some (Normal tt, w1) /\
  handleReadyRead 2 [3] w1 = Some (Normal tt, w2) /\
  handleReadyRead 2 [chr "a"] w2 = Some (Normal tt, w3) /\
  handleReadyRead 2 [chr "b"] w3 = Some (Normal tt, w4) /\
  complete_debug_frame (m_incomingData (self w4) ++ [chr "c"]) = true.
Proof. repeat split; reflexivity. Qed.

(** An unknown byte: one [streamError], one byte removed, mode kept. *)
Example unknown_byte :
  handleReadyRead 2 [127] (Sample.streaming 1 false false) =
    Some (Normal tt,
          {| self := self (Sample.streaming 1 false false);
             objects := objects (Sample.streaming 1 false false);
             trace := [Emit (streamError (UnknownPacketType 127))] |}).
Proof. reflexivity. Qed.

End Pass.

(** C1 (the code departs from the claim). The idle engine receives the
    complete debug frame 'D', 3, 'a', 'b', 'c' in one read. The pass
    never ends, whatever the number of turns; after [n] turns of the
    loop, [n] [debugMessage] events carrying "abc" have been emitted and
    the five bytes are still at the head of the buffer: the branch that
    emits the message does not remove the frame. *)
Theorem handleReadyRead_debug_frame_not_consumed :
  (forall fuel : nat, handleReadyRead fuel Sample.debug_abc Sample.idle = None) /\
  (forall n fuel : nat,
     handleReadyRead (n + fuel) Sample.debug_abc Sample.idle =
       decode_loop fuel false
         {| self := set_incomingData Sample.debug_abc (self Sample.idle);
            objects := objects Sample.idle;
            trace := replicate n (Emit (debugMessage [chr "a"; chr "b"; chr "c"])) |}).
Proof.
  split.
  - intros fuel. unfold handleReadyRead, update.
    apply decode_loop_complete_debug_frame_diverges. reflexivity.
  - intros n fuel. unfold handleReadyRead, update.
    rewrite decode_loop_complete_debug_frame_turns by reflexivity.
    reflexivity.
Qed.

(** C2 (the code departs from the claim). In a stream-mode session the
    buffer receives the two bytes 'D', 0, a complete debug frame with an
    empty message: the decode pass is still running after any number of
    turns. The same happens in an idle engine. *)
Theorem handleReadyRead_does_not_terminate :
  (forall fuel : nat,
     handleReadyRead fuel [chr "D"; 0] (Sample.streaming 0 false false) = None) /\
  (forall fuel : nat, handleReadyRead fuel [chr "D"; 0] Sample.idle = None).
Proof.
  split; intros fuel; unfold handleReadyRead, update;
    apply decode_loop_complete_debug_frame_diverges; reflexivity.
Qed.

Section FlowControl.

(** With the queue-full flag up, [resumeStream] in stream mode only
    lowers the pause flag. *)
Lemma resumeStream_queue_full (w : World) :
  m_isStreamMode (self w) = true ->
  m_hardwareQueueFull (self w) = true ->
  resumeStream w =
    (Normal tt,
     {| self := set_paused false (self w); objects := objects w; trace := trace w |}).
Proof.
  intros Hs Hq. open_world w. subst.
  unfold resumeStream. run_cpp. by destruct m_paused0.
Qed.

(** A pass over a buffer that holds the single byte 'N', in a
    stream-mode session with a point under the cursor. *)
Lemma handleReadyRead_N (w : World) (a : addr) (s : Sequence) (p : SequencePoint)
      (fuel : nat) (rest : QByteArray) :
  Streaming w a s ->
  currentPoint s = Some p ->
  m_incomingData (self w) = chr "N" :: rest ->
  decode_loop (S fuel) false w =
    if cursor s =? numPoints s - 1 then
      decode_loop fuel false
        {| self := idle_of (self w);
           objects := <[a := with_subscribed false s]> (objects w);
           trace := trace w ++ [Write (createSequencePacketForPoint p);
                                Write [chr "H"]; Emit streamStopped] |}
    else
      decode_loop fuel false
        {| self := set_incomingData rest (set_hardwareQueueFull false (self w));
           objects := <[a := with_cursor (cursor s + 1) s]> (objects w);
           trace := trace w ++ [Write (createSequencePacketForPoint p)] |}.
Proof.
  intros H Hp Hbuf. cbn [decode_loop]. rewrite Hbuf.
  rewrite (loop_body_N w a s p rest H Hp Hbuf).
  by destruct (cursor s =? numPoints s - 1).
Qed.

Lemma decode_loop_empty (fuel : nat) (partialPacket : bool) (w : World) :
  m_incomingData (self w) = [] ->
  decode_loop (S fuel) partialPacket w = Some (Normal tt, w).
Proof. intros Hbuf. cbn [decode_loop]. by rewrite Hbuf. Qed.

End FlowControl.

(** C6. A paused stream-mode session with an empty buffer receives 'F':
    the pass raises the queue-full flag and writes nothing. [resumeStream]
    then lowers the pause flag and does nothing else: no packet is
    written and the sequence, cursor included, is untouched. Resuming
    again, or pausing and resuming, changes nothing more. When 'N' then
    arrives, the flag is cleared and the point under the cursor is written
    (followed, at the last index, by the stop packet). *)
Theorem queue_full_defers_resume
        (w : World) (a : addr) (s : Sequence) (p : SequencePoint) (fuel : nat) :
  Streaming w a s ->
  currentPoint s = Some p ->
  m_paused (self w) = true ->
  m_incomingData (self w) = [] ->
  let full := {| self := set_hardwareQueueFull true (self w);
                 objects := objects w; trace := trace w |} in
  let resumed := {| self := set_paused false (set_hardwareQueueFull true (self w));
                    objects := objects w; trace := trace w |} in
  handleReadyRead (S (S fuel)) [chr "F"] w = Some (Normal tt, full) /\
  resumeStream full = (Normal tt, resumed) /\
  resumeStream resumed = (Normal tt, resumed) /\
  pauseStream resumed = (Normal tt, full) /\
  handleReadyRead (S (S fuel)) [chr "N"] resumed =
    Some (Normal tt,
          if cursor s =? numPoints s - 1 then
            {| self := idle_of (self w);
               objects := <[a := with_subscribed false s]> (objects w);
               trace := trace w ++ [Write (createSequencePacketForPoint p);
                                    Write [chr "H"]; Emit streamStopped] |}
          else
            {| self := set_paused false (set_hardwareQueueFull false (self w));
               objects := <[a := with_cursor (cursor s + 1) s]> (objects w);
               trace := trace w ++ [Write (createSequencePacketForPoint p)] |}).
Proof.
  intros H Hp Hpaused Hbuf full resumed.
  assert (Hres : Streaming
            {| self := set_incomingData [chr "N"] (self resumed);
               objects := objects w; trace := trace w |} a s)
    by (open_streaming H; open_world w; by repeat split).
  pose proof (handleReadyRead_N _ a s p (S fuel) [] Hres Hp eq_refl) as HN.
  subst full resumed. open_streaming H. open_world w. subst.
  split; [|split; [|split; [|split]]].
  - (* 'F' arrives *)
    unfold handleReadyRead. run_cpp. cbn [app decode_loop]. run_cpp.
    rewrite (loop_body_F _ []) by reflexivity. reflexivity.
  - (* resume under a full queue *)
    by rewrite resumeStream_queue_full.
  - (* resume once more *)
    by rewrite resumeStream_queue_full.
  - (* pause again *)
    unfold pauseStream. run_cpp. reflexivity.
  - (* 'N' arrives *)
    unfold handleReadyRead. run_cpp. cbn [app]. run_cpp.
    rewrite HN. by destruct (cursor s =? numPoints s - 1).
Qed.

Lemma queue_full_defers_resume_sample :
  handleReadyRead 2 [chr "F"] (Sample.streaming 1 true false)
    = Some (Normal tt, Sample.streaming 1 true true) /\
  resumeStream (Sample.streaming 1 true true)
    = (Normal tt, Sample.streaming 1 false true) /\
  handleReadyRead 2 [chr "N"] (Sample.streaming 1 false true)
    = Some (Normal tt,
            {| self := self (Sample.streaming 1 false false);
               objects := <[7%nat := Sample.seq3 2]> (objects (Sample.streaming 1 false true));
               trace := [Write (createSequencePacketForPoint Sample.point1)] |}).
Proof.
  assert (Hs : Streaming (Sample.streaming 1 true false) 7%nat (Sample.seq3 1))
    by (repeat split; reflexivity).
  destruct (queue_full_defers_resume (Sample.streaming 1 true false) 7%nat (Sample.seq3 1)
              Sample.point1 0%nat Hs eq_refl eq_refl eq_refl)
    as (HF & HR & _ & _ & HN).
  split; [exact HF | split; [exact HR | exact HN]].
Defined.

(** C9. In a stream-mode session that is paused, with the queue-full
    flag down, an empty buffer and a point under the cursor, a pass over
    the single byte 'N' writes that point and advances the cursor; at the
    last index the advance is the stop. The pause flag is not consulted:
    away from the last index it is still up afterwards. *)
Theorem queue_ready_ignores_pause
        (w : World) (a : addr) (s : Sequence) (p : SequencePoint) (fuel : nat) :
  Streaming w a s ->
  currentPoint s = Some p ->
  m_paused (self w) = true ->
  m_hardwareQueueFull (self w) = false ->
  m_incomingData (self w) = [] ->
  handleReadyRead (S (S fuel)) [chr "N"] w =
    Some (Normal tt,
          if cursor s =? numPoints s - 1 then
            {| self := idle_of (self w);
               objects := <[a := with_subscribed false s]> (objects w);
               trace := trace w ++ [Write (createSequencePacketForPoint p);
                                    Write [chr "H"]; Emit streamStopped] |}
          else
            {| self := self w;
               objects := <[a := with_cursor (cursor s + 1) s]> (objects w);
               trace := trace w ++ [Write (createSequencePacketForPoint p)] |}).
Proof.
  intros H Hp Hpaused Hq Hbuf.
  assert (Hin : Streaming
            {| self := set_incomingData [chr "N"] (self w);
               objects := objects w; trace := trace w |} a s)
    by (open_streaming H; open_world w; by repeat split).
  pose proof (handleReadyRead_N _ a s p (S fuel) [] Hin Hp eq_refl) as HN.
  open_streaming H. open_world w. subst.
  unfold handleReadyRead. run_cpp. cbn [app]. run_cpp.
  rewrite HN. by destruct (cursor s =? numPoints s - 1).
Qed.

Lemma queue_ready_ignores_pause_sample :
  handleReadyRead 2 [chr "N"] (Sample.streaming 0 true false) =
    Some (Normal tt,
          {| self := self (Sample.streaming 0 true false);
             objects := <[7%nat := Sample.seq3 1]> (objects (Sample.streaming 0 true false));
             trace := [Write (createSequencePacketForPoint Sample.point0)] |}).
Proof.
  assert (Hs : Streaming (Sample.streaming 0 true false) 7%nat (Sample.seq3 0))
    by (repeat split; reflexivity).
  exact (queue_ready_ignores_pause (Sample.streaming 0 true false) 7%nat (Sample.seq3 0)
           Sample.point0 0%nat Hs eq_refl eq_refl eq_refl eq_refl).
Defined.

(** C10. In a stream-mode session whose cursor is at the last index, a
    turn of the decode loop on 'N' writes the last point and runs [stop],
    which clears the buffer; the loop then finds the buffer empty and the
    pass is over. Whatever followed the 'N' in the buffer is gone and
    nothing was emitted for it: the only effects of the pass are the
    point packet, the stop packet and [streamStopped]. The same holds for
    a whole [handleReadyRead] whose buffer, once the new bytes are
    appended, starts with that 'N'. *)
Theorem stop_in_decode_pass_discards_rest
        (w : World) (a : addr) (s : Sequence) (p : SequencePoint)
        (readAll rest : QByteArray) (fuel : nat) :
  Streaming w a s ->
  currentPoint s = Some p ->
  cursor s = numPoints s - 1 ->
  m_incomingData (self w) ++ readAll = chr "N" :: rest ->
  let stopped :=
    {| self := idle_of (self w);
       objects := <[a := with_subscribed false s]> (objects w);
       trace := trace w ++ [Write (createSequencePacketForPoint p);
                            Write [chr "H"]; Emit streamStopped] |} in
  handleReadyRead (S (S fuel)) readAll w = Some (Normal tt, stopped) /\
  m_incomingData (self stopped) = [] /\
  (m_incomingData (self w) = chr "N" :: rest ->
   decode_loop (S (S fuel)) false w = Some (Normal tt, stopped)).
Proof.
  intros H Hp Hlast Hbuf stopped.
  apply Z.eqb_eq in Hlast.
  split; [|split; [reflexivity|]].
  - assert (Hin : Streaming
              {| self := set_incomingData (chr "N" :: rest) (self w);
                 objects := objects w; trace := trace w |} a s)
      by (open_streaming H; open_world w; by repeat split).
    pose proof (handleReadyRead_N _ a s p (S fuel) rest Hin Hp eq_refl) as HN.
    rewrite Hlast in HN.
    unfold handleReadyRead, update. rewrite Hbuf, HN.
    rewrite decode_loop_empty by reflexivity.
    subst stopped. open_world w. reflexivity.
  - intros Hhead.
    rewrite (handleReadyRead_N w a s p (S fuel) rest H Hp Hhead), Hlast.
    by rewrite decode_loop_empty.
Qed.

Lemma stop_in_decode_pass_discards_rest_sample :
  handleReadyRead 2 (chr "N" :: Sample.debug_abc ++ [chr "F"; 127]) (Sample.streaming 2 false false) =
    Some (Normal tt,
          {| self := idle_of (self (Sample.streaming 2 false false));
             objects := <[7%nat := with_subscribed false (Sample.seq3 2)]>
                          (objects (Sample.streaming 2 false false));
             trace := [Write (createSequencePacketForPoint Sample.point2);
                       Write [chr "H"]; Emit streamStopped] |}).
Proof.
  assert (Hs : Streaming (Sample.streaming 2 false false) 7%nat (Sample.seq3 2))
    by (repeat split; reflexivity).
  exact (proj1 (stop_in_decode_pass_discards_rest (Sample.streaming 2 false false) 7%nat
                  (Sample.seq3 2) Sample.point2
                  (chr "N" :: Sample.debug_abc ++ [chr "F"; 127])
                  (Sample.debug_abc ++ [chr "F"; 127]) 0%nat
                  Hs eq_refl eq_refl eq_refl)).
Defined.

(** * Further properties *)

(** ** Point packets, byte by byte *)

Section PacketBytes.

Lemma to_char_range (x : Z) : 0 <= to_char x < 256.
Proof. unfold to_char. apply Z.mod_pos_bound. lia. Qed.

Lemma encode_value_mod (v : Z) : encode_value v = v mod 256.
Proof.
  unfold encode_value, to_uint. rewrite low_byte by (apply Z.mod_pos_bound; lia).
  change (2 ^ 32) with (256 * 16777216).
  rewrite Z.rem_mul_r by lia.
  rewrite (Z.mul_comm 256), Z.mod_add by lia.
  apply Z.mod_mod. lia.
Qed.

End PacketBytes.

(** X1. A point packet is well formed whatever the point holds: it has
    five bytes more than the point has values, it starts with 'P', and
    every byte of it is in 0..255. *)
Theorem createSequencePacketForPoint_well_formed (p : SequencePoint) :
  length (createSequencePacketForPoint p) = (5 + length (point p))%nat /\
  createSequencePacketForPoint p !! 0%nat = Some (chr "P") /\
  Forall (fun b => 0 <= b < 256) (createSequencePacketForPoint p).
Proof.
  rewrite createSequencePacketForPoint_layout. split; [|split].
  - cbn [app length]. by rewrite length_map.
  - reflexivity.
  - cbn [app]. repeat (constructor; [first [apply to_char_range | by vm_compute] |]).
    apply List.Forall_forall. intros b Hb.
    apply in_map_iff in Hb as (v & <- & _).
    apply to_char_range.
Qed.

(** X2. The bytes of a point packet for 16-bit fields: 'P'; 0 or 1
    according to whether the duration is below 256; the duration modulo
    256; the same two bytes for the time to target; then every value
    modulo 256, so that 256 is sent as 0 and -1 as 255. *)
Theorem createSequencePacketForPoint_bytes (p : SequencePoint) :
  0 <= duration p < 65536 ->
  0 <= timeToTarget p < 65536 ->
  createSequencePacketForPoint p =
    [ chr "P";
      if duration p <? 256 then 0 else 1;
      duration p mod 256;
      if timeToTarget p <? 256 then 0 else 1;
      timeToTarget p mod 256 ]
    ++ map (fun v => v mod 256) (point p).
Proof.
  intros Hd Ht. rewrite createSequencePacketForPoint_layout.
  rewrite !high_byte_is_a_flag, !low_byte by lia.
  f_equal. apply map_ext. intros v. apply encode_value_mod.
Qed.

Lemma createSequencePacketForPoint_bytes_sample :
  createSequencePacketForPoint (mkPoint 700 65535 [0; 256; -1]) =
    [chr "P"; 1; 188; 1; 255; 0; 0; 255].
Proof.
  exact (createSequencePacketForPoint_bytes (mkPoint 700 65535 [0; 256; -1])
           ltac:(cbn; lia) ltac:(cbn; lia)).
Defined.


(** X3. For a point with 16-bit fields and byte values, encoding and
    then parsing the fixed layout gives the point back exactly when its
    duration and its time to target are both below 512. *)
Theorem parsePoint_roundtrip_iff (p : SequencePoint) :
  0 <= duration p < 65536 ->
  0 <= timeToTarget p < 65536 ->
  Forall (fun v => 0 <= v <= 255) (point p) ->
  parsePoint (createSequencePacketForPoint p) = Some p <->
  duration p < 512 /\ timeToTarget p < 512.
Proof.
  intros Hd Ht Hv.
  rewrite parsePoint_createSequencePacketForPoint by assumption.
  destruct p as [d t vs]; cbn [duration timeToTarget point] in *.
  split.
  - intros H. inversion H as [[Hd' Ht']].
    split.
    + destruct (Z.ltb_spec d 256); Z.div_mod_to_equations; lia.
    + destruct (Z.ltb_spec t 256); Z.div_mod_to_equations; lia.
  - intros [Hd' Ht']. f_equal. f_equal.
    + destruct (Z.ltb_spec d 256); Z.div_mod_to_equations; lia.
    + destruct (Z.ltb_spec t 256); Z.div_mod_to_equations; lia.
Qed.

Lemma parsePoint_roundtrip_iff_sample :
  parsePoint (createSequencePacketForPoint (mkPoint 511 300 [1; 2; 255]))
    = Some (mkPoint 511 300 [1; 2; 255]).
Proof.
  apply (parsePoint_roundtrip_iff (mkPoint 511 300 [1; 2; 255])).
  - cbn; lia.
  - cbn; lia.
  - repeat constructor; lia.
  - cbn; lia.
Defined.

(** ** Sessions: start, stop, pause *)

Section Sessions.

Lemma with_cursor_same (s : Sequence) : with_cursor (cursor s) s = s.
Proof. by destruct s. Qed.

(** [startStream] up to the test of the timer. *)
Lemma startStream_configures (w : World) (a : addr) (s : Sequence) (fromCurrent : bool) :
  Ready w ->
  objects w !! a = Some s ->
  startStream a fromCurrent w =
    when (negb (m_arduinoBoot (self w))) arduinoBootFinished
      {| self := stream_engine (self w) a;
         objects := <[a := if fromCurrent then s else with_cursor 0 s]> (objects w);
         trace := trace w |}.
Proof.
  intros [Hidle Hopen] Hobj. open_world w.
  unfold startStream, setCurPoint, curPointChanged, stream_engine. run_cpp.
  rewrite Hopen. run_cpp. rewrite Hidle. run_cpp.
  destruct fromCurrent; run_cpp.
  - by rewrite (insert_id _ _ _ Hobj).
  - rewrite Hobj. destruct (Z.eqb_spec (cursor s) 0) as [H0 | H0]; run_cpp.
    + rewrite <- H0, with_cursor_same. by rewrite (insert_id _ _ _ Hobj).
    + by destruct (subscribed s).
Qed.

(** [startImmediate] up to the test of the timer. *)
Lemma startImmediate_configures (w : World) (a : addr) (s : Sequence) :
  Ready w ->
  objects w !! a = Some s ->
  startImmediate a w =
    when (negb (m_arduinoBoot (self w))) arduinoBootFinished
      {| self := immediate_engine (self w) a;
         objects := <[a := with_subscribed true s]> (objects w);
         trace := trace w |}.
Proof.
  intros [Hidle Hopen] Hobj. open_world w.
  unfold startImmediate, immediate_engine. run_cpp.
  rewrite Hopen. run_cpp. rewrite Hidle. run_cpp. rewrite Hobj. reflexivity.
Qed.

(** [arduinoBootFinished] in an immediate-mode session. *)
Lemma arduinoBootFinished_immediate (w : World) (a : addr) (s : Sequence) (p : SequencePoint) :
  Immediate w a s ->
  currentPoint s = Some p ->
  arduinoBootFinished w =
    (Normal tt,
     {| self := self w;
        objects := objects w;
        trace := trace w ++
                 [Write [chr "I"; to_char (bool_to_int (logical_and (pointDim s) 255))];
                  sent p] |}).
Proof.
  intros (Hs & Hi & Hptr & Hobj) Hp. open_world w. subst.
  unfold arduinoBootFinished, sent. run_cpp. rewrite Hobj. run_cpp.
  rewrite Hobj. run_cpp. rewrite Hp. run_cpp.
  by rewrite <- !app_assoc.
Qed.

(** [stop] in an immediate-mode session. *)
Lemma stop_immediate_world (w : World) (a : addr) (s : Sequence) :
  Immediate w a s ->
  stop w =
    (Normal tt,
     {| self := idle_of (self w);
        objects := <[a := with_subscribed false s]> (objects w);
        trace := trace w ++ [Write [chr "H"]] |}).
Proof.
  intros (Hs & Hi & Hptr & Hobj). open_world w. subst.
  unfold stop. run_cpp. rewrite Hobj. reflexivity.
Qed.

End Sessions.

(** X4. [stop] in an immediate-mode session writes the stop packet,
    disconnects the sequence and leaves the engine idle with an empty
    buffer; unlike a stream-mode stop it emits no signal. *)
Theorem stop_immediate (w : World) (a : addr) (s : Sequence) :
  Immediate w a s ->
  exists w',
    stop w = (Normal tt, w') /\
    trace w' = trace w ++ [Write [chr "H"]] /\
    objects w' = <[a := with_subscribed false s]> (objects w) /\
    self w' = idle_of (self w) /\
    isStreaming (self w') = false.
Proof.
  intros H. eexists. split; [exact (stop_immediate_world w a s H)|].
  repeat split.
Qed.

Lemma stop_immediate_sample :
  exists w',
    stop Sample.immediate = (Normal tt, w') /\
    trace w' = [Write [chr "H"]] /\
    isStreaming (self w') = false.
Proof.
  destruct (stop_immediate Sample.immediate 7%nat
              (mkSequence [Sample.point0; Sample.point1; Sample.point2] 0 3 true)
              ltac:(repeat split; reflexivity))
    as (w' & Hstop & Htrace & _ & _ & Hidle).
  exists w'. split; [exact Hstop | split; [exact Htrace | exact Hidle]].
Defined.

(** X5. [startStream] on an idle engine whose boot timer is still
    running configures the session and writes nothing: stream mode, the
    sequence bound, pause and queue-full down, the buffer emptied, and
    the cursor at 0 unless the stream starts from the current point. *)
Theorem startStream_deferred (w : World) (a : addr) (s : Sequence) (fromCurrent : bool) :
  Ready w ->
  m_arduinoBoot (self w) = true ->
  objects w !! a = Some s ->
  startStream a fromCurrent w =
    (Normal tt,
     {| self := mkEngine (m_serialPort (self w)) (Some a) true false true [] false false;
        objects := <[a := if fromCurrent then s else with_cursor 0 s]> (objects w);
        trace := trace w |}).
Proof.
  intros Hready Hboot Hobj.
  rewrite (startStream_configures w a s fromCurrent Hready Hobj).
  unfold stream_engine. by rewrite Hboot.
Qed.

(** X6. [startStream] on an idle engine whose boot timer is not running
    starts at once: the start packet, the point under the cursor and
    [streamStarted], then the cursor advance. If that point is the last
    one (a one-point sequence, say) the session is over when
    [startStream] returns: the stop packet and [streamStopped] follow and
    the engine is idle again. *)
Theorem startStream_starts (w : World) (a : addr) (s : Sequence) (p : SequencePoint)
        (fromCurrent : bool) :
  Ready w ->
  m_arduinoBoot (self w) = false ->
  objects w !! a = Some s ->
  let s0 := if fromCurrent then s else with_cursor 0 s in
  currentPoint s0 = Some p ->
  let start := [Write [chr "S"; to_char (bool_to_int (logical_and (pointDim s) 255))];
                sent p; Emit streamStarted] in
  startStream a fromCurrent w =
    (Normal tt,
     if cursor s0 =? numPoints s - 1 then
       {| self := mkEngine (m_serialPort (self w)) None false false false [] false false;
          objects := <[a := with_subscribed false s0]> (objects w);
          trace := trace w ++ start ++ [Write [chr "H"]; Emit streamStopped] |}
     else
       {| self := mkEngine (m_serialPort (self w)) (Some a) true false false [] false false;
          objects := <[a := with_cursor (cursor s0 + 1) s0]> (objects w);
          trace := trace w ++ start |}).
Proof.
  intros Hready Hboot Hobj s0 Hp start.
  rewrite (startStream_configures w a s fromCurrent Hready Hobj).
  rewrite Hboot. cbn [negb when]. fold s0.
  set (w1 := {| self := stream_engine (self w) a;
                objects := <[a := s0]> (objects w); trace := trace w |}).
  assert (H1 : Streaming w1 a s0)
    by (repeat split; try reflexivity; cbn; apply lookup_insert_eq).
  rewrite (arduinoBootFinished_streaming w1 a s0 p H1 Hp).
  rewrite (incrementCurPoint_streaming _ a s0)
    by (repeat split; try reflexivity; cbn; apply lookup_insert_eq).
  assert (Hdim : pointDim s0 = pointDim s) by (subst s0; by destruct fromCurrent).
  assert (Hnum : numPoints s0 = numPoints s) by (subst s0; by destruct fromCurrent).
  rewrite Hdim, Hnum. subst w1 start. unfold stream_engine, sent. cbn [self objects trace idle_of
    m_serialPort m_arduinoBoot]. rewrite Hboot, !insert_insert_eq.
  destruct (cursor s0 =? numPoints s - 1); [|reflexivity].
  by rewrite <- app_assoc.
Qed.

Lemma startStream_deferred_sample :
  startStream 7%nat false (Scenario.ready true 2) =
    (Normal tt,
     {| self := mkEngine Sample.port (Some 7%nat) true false true [] false false;
        objects := <[7%nat := Sample.seq3 0]> (objects (Scenario.ready true 2));
        trace := [] |}).
Proof.
  exact (startStream_deferred (Scenario.ready true 2) 7%nat (Sample.seq3 2) false
           ltac:(split; reflexivity) eq_refl eq_refl).
Defined.

Lemma startStream_starts_sample :
  startStream 7%nat true (Scenario.ready false 1) =
    (Normal tt,
     {| self := mkEngine Sample.port (Some 7%nat) true false false [] false false;
        objects := <[7%nat := Sample.seq3 2]> (objects (Scenario.ready false 1));
        trace := [Write [chr "S"; 1]; sent Sample.point1; Emit streamStarted] |}) /\
  startStream 7%nat false Scenario.ready1 =
    (Normal tt,
     {| self := mkEngine Sample.port None false false false [] false false;
        objects := <[7%nat := Scenario.seq1]> (objects Scenario.ready1);
        trace := [Write [chr "S"; 1]; sent Sample.point1; Emit streamStarted;
                  Write [chr "H"]; Emit streamStopped] |}).
Proof.
  split.
  - exact (startStream_starts (Scenario.ready false 1) 7%nat (Sample.seq3 1) Sample.point1 true
             ltac:(split; reflexivity) eq_refl eq_refl eq_refl).
  - exact (startStream_starts Scenario.ready1 7%nat Scenario.seq1 Sample.point1 false
             ltac:(split; reflexivity) eq_refl eq_refl eq_refl).
Defined.

(** X7. [startImmediate] on an idle engine binds and subscribes to the
    sequence and enters immediate mode; with the boot timer not running
    it writes the start packet 'I' and the point under the cursor, with
    the timer running it writes nothing. It emits no signal, does not
    move the cursor, and leaves the pause and queue-full flags as they
    were. *)
Theorem startImmediate_starts (w : World) (a : addr) (s : Sequence) (p : SequencePoint) :
  Ready w ->
  objects w !! a = Some s ->
  currentPoint s = Some p ->
  startImmediate a w =
    (Normal tt,
     {| self := mkEngine (m_serialPort (self w)) (Some a) false true (m_arduinoBoot (self w)) []
                         (m_paused (self w)) (m_hardwareQueueFull (self w));
        objects := <[a := with_subscribed true s]> (objects w);
        trace := trace w ++
                 if m_arduinoBoot (self w) then []
                 else [Write [chr "I"; to_char (bool_to_int (logical_and (pointDim s) 255))];
                       sent p] |}).
Proof.
  intros Hready Hobj Hp.
  rewrite (startImmediate_configures w a s Hready Hobj).
  destruct (m_arduinoBoot (self w)) eqn:Hboot; cbn [negb when].
  - unfold ret, immediate_engine. by rewrite app_nil_r, Hboot.
  - rewrite (arduinoBootFinished_immediate _ a (with_subscribed true s) p).
    + unfold immediate_engine. cbn [self objects trace]. by rewrite Hboot.
    + destruct Hready as [Hidle _]. repeat split; try reflexivity.
      cbn. apply lookup_insert_eq.
    + exact Hp.
Qed.

Lemma startImmediate_starts_sample :
  startImmediate 7%nat (Scenario.ready false 1) =
    (Normal tt,
     {| self := mkEngine Sample.port (Some 7%nat) false true false [] false false;
        objects := <[7%nat := with_subscribed true (Sample.seq3 1)]>
                     (objects (Scenario.ready false 1));
        trace := [Write [chr "I"; 1]; sent Sample.point1] |}).
Proof.
  exact (startImmediate_starts (Scenario.ready false 1) 7%nat (Sample.seq3 1) Sample.point1
           ltac:(split; reflexivity) eq_refl eq_refl).
Defined.

(** X8. In an immediate-mode session the slot [curPointChanged] writes
    the packet of the point under the cursor and changes nothing else. *)
Theorem curPointChanged_immediate (w : World) (a : addr) (s : Sequence) (p : SequencePoint) :
  Immediate w a s ->
  currentPoint s = Some p ->
  curPointChanged w =
    (Normal tt,
     {| self := self w; objects := objects w; trace := trace w ++ [sent p] |}).
Proof.
  intros (Hs & Hi & Hptr & Hobj) Hp. open_world w. subst.
  unfold curPointChanged, sent. run_cpp. rewrite Hobj. run_cpp. by rewrite Hp.
Qed.

Lemma curPointChanged_immediate_sample :
  curPointChanged Sample.immediate =
    (Normal tt,
     {| self := self Sample.immediate; objects := objects Sample.immediate;
        trace := [sent Sample.point0] |}).
Proof.
  exact (curPointChanged_immediate Sample.immediate 7%nat Scenario.seq3_subscribed Sample.point0
           ltac:(repeat split; reflexivity) eq_refl).
Defined.

(** X9. Pausing and resuming a running stream whose queue is not full
    is not neutral: [resumeStream] writes the point under the cursor and
    advances, without any 'N' from the device. Away from the last index
    the engine is as before and the cursor is one further; at the last
    index the session stops. *)
Theorem pause_resume_sends_a_point (w : World) (a : addr) (s : Sequence) (p : SequencePoint) :
  Streaming w a s ->
  currentPoint s = Some p ->
  m_paused (self w) = false ->
  m_hardwareQueueFull (self w) = false ->
  (pauseStream ;;; resumeStream) w =
    (Normal tt,
     if cursor s =? numPoints s - 1 then
       {| self := idle_of (self w);
          objects := <[a := with_subscribed false s]> (objects w);
          trace := trace w ++ [sent p; Write [chr "H"]; Emit streamStopped] |}
     else
       {| self := self w;
          objects := <[a := with_cursor (cursor s + 1) s]> (objects w);
          trace := trace w ++ [sent p] |}).
Proof.
  intros H Hp Hpaused Hq.
  assert (Hpause : pauseStream w =
            (Normal tt, {| self := set_paused true (self w);
                           objects := objects w; trace := trace w |})).
  { open_streaming H. open_world w. subst. unfold pauseStream. run_cpp. reflexivity. }
  unfold bind at 1. rewrite Hpause.
  rewrite (resumeStream_sends_and_advances _ a s p)
    by (open_streaming H; open_world w; by repeat split).
  rewrite (incrementCurPoint_streaming _ a s)
    by (open_streaming H; open_world w; by repeat split).
  open_streaming H. open_world w. subst. unfold sent. run_cpp.
  destruct (cursor s =? numPoints s - 1); [|reflexivity].
  by rewrite <- app_assoc.
Qed.

Lemma pause_resume_sends_a_point_sample :
  (pauseStream ;;; resumeStream) (Sample.streaming 1 false false) =
    (Normal tt,
     {| self := self (Sample.streaming 1 false false);
        objects := <[7%nat := Sample.seq3 2]> (objects (Sample.streaming 1 false false));
        trace := [sent Sample.point1] |}).
Proof.
  exact (pause_resume_sends_a_point (Sample.streaming 1 false false) 7%nat (Sample.seq3 1)
           Sample.point1 ltac:(repeat split; reflexivity) eq_refl eq_refl eq_refl).
Defined.

(** X10. [openSerial] without a session never throws. The port gets the
    new name and baud rate; it is open exactly when the device opened,
    so a failed attempt leaves the port closed even if it was open
    before; the boot timer is started on success and left as it was on
    failure. Nothing is written or emitted. *)
Theorem openSerial_without_session (w : World) (port : string) (baud : Z) (device_opens : bool) :
  isStreaming (self w) = false ->
  openSerial port baud device_opens w =
    (Normal device_opens,
     {| self := set_arduinoBoot (device_opens || m_arduinoBoot (self w))
                  (set_serialPort (mkPort device_opens port baud) (self w));
        objects := objects w;
        trace := trace w |}).
Proof.
  intros Hidle. open_world w.
  unfold openSerial, close_port. run_cpp. rewrite Hidle. run_cpp.
  by destruct (isOpen m_serialPort0), device_opens.
Qed.

Lemma openSerial_without_session_sample :
  openSerial "ttyUSB1" 9600 false (Scenario.ready false 0) =
    (Normal false,
     {| self := mkEngine (mkPort false "ttyUSB1" 9600) None false false false [] false false;
        objects := objects (Scenario.ready false 0);
        trace := [] |}).
Proof.
  exact (openSerial_without_session (Scenario.ready false 0) "ttyUSB1" 9600 false eq_refl).
Defined.

Section Transport.

Lemma closeSerial_closes (w : World) :
  isStreaming (self w) = false ->
  closeSerial w =
    (Normal tt, {| self := close_port (self w); objects := objects w; trace := trace w |}).
Proof.
  intros Hidle. open_world w.
  unfold closeSerial, close_port. run_cpp. rewrite Hidle. run_cpp.
  destruct m_serialPort0 as [[] name baud]; by cbn.
Qed.

End Transport.

(** X11. [closeSerial] without a session closes the port and touches
    nothing else (the boot timer keeps running if it was); closing again
    changes nothing. *)
Theorem closeSerial_without_session (w : World) :
  isStreaming (self w) = false ->
  let closed := {| self := close_port (self w); objects := objects w; trace := trace w |} in
  closeSerial w = (Normal tt, closed) /\
  closeSerial closed = (Normal tt, closed) /\
  isOpen (m_serialPort (self closed)) = false /\
  m_arduinoBoot (self closed) = m_arduinoBoot (self w).
Proof.
  intros Hidle closed. split; [exact (closeSerial_closes w Hidle)|].
  split; [|split; reflexivity].
  rewrite (closeSerial_closes closed) by exact Hidle.
  subst closed. by open_world w.
Qed.

Lemma closeSerial_without_session_sample :
  closeSerial (Scenario.ready true 0) =
    (Normal tt,
     {| self := mkEngine (mkPort false "ttyACM0" 115200) None false false true [] false false;
        objects := objects (Scenario.ready true 0);
        trace := [] |}).
Proof.
  exact (proj1 (closeSerial_without_session (Scenario.ready true 0) eq_refl)).
Defined.

Section Teardown.

(** How [stop] can end: it throws, in the world it was called in, when
    there is no session; when it returns the engine is idle. *)
Lemma stop_outcome (w : World) :
  match stop w with
  | (Thrown _, w') => w' = w /\ isStreaming (self w) = false
  | (Normal _, w') => self w' = idle_of (self w) /\ isStreaming (self w) = true
  | _ => True
  end.
Proof.
  open_world w. unfold stop. run_cpp.
  destruct m_isStreamMode0, m_isImmediateMode0; run_cpp; try done;
    destruct m_sequence0 as [a|]; try done;
    destruct (objects0 !! a); done.
Qed.

End Teardown.

(** X12. No exception leaves the destructor, in any world. When it
    returns, the port is closed and there is no session. *)
Theorem destructor_never_throws (w : World) :
  match destructor w with
  | (Thrown _, _) => False
  | (Normal _, w') =>
      isOpen (m_serialPort (self w')) = false /\ isStreaming (self w') = false
  | _ => True
  end.
Proof.
  unfold destructor, bind, try_catch_all.
  pose proof (stop_outcome w) as Hstop.
  destruct (stop w) as [[[]|e| |] w1]; try exact I.
  - destruct Hstop as [Hself Hs].
    assert (Hidle : isStreaming (self w1) = false) by (by rewrite Hself).
    rewrite (closeSerial_closes w1 Hidle). split; [reflexivity | exact Hidle].
  - destruct Hstop as [-> Hidle].
    rewrite (closeSerial_closes w Hidle). split; [reflexivity | exact Hidle].
Qed.

(** X13. Destroying the engine during a stream-mode session ends the
    session first: the stop packet is written, [streamStopped] is
    emitted, the sequence is released, and then the port is closed. *)
Theorem destructor_during_stream (w : World) (a : addr) (s : Sequence) :
  Streaming w a s ->
  destructor w =
    (Normal tt,
     {| self := close_port (idle_of (self w));
        objects := <[a := with_subscribed false s]> (objects w);
        trace := trace w ++ [Write [chr "H"]; Emit streamStopped] |}).
Proof.
  intros H. unfold destructor, bind, try_catch_all.
  rewrite (stop_streaming w a s H).
  by rewrite closeSerial_closes.
Qed.

Lemma destructor_during_stream_sample :
  destructor (Sample.streaming 1 true false) =
    (Normal tt,
     {| self := mkEngine (mkPort false "ttyACM0" 115200) None false false false [] false false;
        objects := <[7%nat := Sample.seq3 1]> (objects (Sample.streaming 1 true false));
        trace := [Write [chr "H"]; Emit streamStopped] |}).
Proof.
  exact (destructor_during_stream (Sample.streaming 1 true false) 7%nat (Sample.seq3 1)
           ltac:(repeat split; reflexivity)).
Defined.

(** X14. A stream that is started while the boot timer runs and stopped
    before the timer expires never sends a start packet or a point: the
    stop packet is the only write, [streamStopped] is emitted although
    [streamStarted] never was, and the expiry of the timer then finds an
    idle engine and does nothing. *)
Theorem stream_stopped_before_boot (w : World) (a : addr) (s : Sequence) (fromCurrent : bool) :
  Ready w ->
  m_arduinoBoot (self w) = true ->
  objects w !! a = Some s ->
  (startStream a fromCurrent ;;; stop ;;; arduinoBoot_timeout) w =
    (Normal tt,
     {| self := mkEngine (m_serialPort (self w)) None false false false [] false false;
        objects := <[a := with_subscribed false (if fromCurrent then s else with_cursor 0 s)]>
                     (objects w);
        trace := trace w ++ [Write [chr "H"]; Emit streamStopped] |}).
Proof.
  intros Hready Hboot Hobj.
  unfold bind at 1. rewrite (startStream_configures w a s fromCurrent Hready Hobj).
  rewrite Hboot. cbn [negb when]. unfold ret.
  unfold bind at 1.
  rewrite (stop_streaming _ a (if fromCurrent then s else with_cursor 0 s))
    by (repeat split; try reflexivity; cbn; apply lookup_insert_eq).
  unfold arduinoBoot_timeout, stream_engine. run_cpp. rewrite Hboot. run_cpp.
  unfold arduinoBootFinished. run_cpp.
  by rewrite insert_insert_eq.
Qed.

Lemma stream_stopped_before_boot_sample :
  (startStream 7%nat false ;;; stop ;;; arduinoBoot_timeout) (Scenario.ready true 2) =
    (Normal tt,
     {| self := mkEngine Sample.port None false false false [] false false;
        objects := <[7%nat := Sample.seq3 0]> (objects (Scenario.ready true 2));
        trace := [Write [chr "H"]; Emit streamStopped] |}).
Proof.
  exact (stream_stopped_before_boot (Scenario.ready true 2) 7%nat (Sample.seq3 2) false
           ltac:(split; reflexivity) eq_refl eq_refl).
Defined.

(** ** Consistency of the engine fields *)

Section Consistency.

Lemma preserves_bind {A B} (m : M A) (k : A -> M B) :
  preserves_consistency m ->
  (forall a, preserves_consistency (k a)) ->
  preserves_consistency (bind m k).
Proof.
  intros Hm Hk w Hc. unfold bind. specialize (Hm w Hc).
  destruct (m w) as [[a| | |] w1]; try done.
  by apply Hk.
Qed.

Lemma preserves_keeps {A} (m : M A) : keeps_engine m -> preserves_consistency m.
Proof.
  intros Hk w Hc. specialize (Hk w).
  destruct (m w) as [[a| | |] w1]; cbn [snd] in Hk; try done; by rewrite Hk.
Qed.

Lemma preserves_when (b : bool) (m : M unit) :
  preserves_consistency m -> preserves_consistency (when b m).
Proof. intros Hm. destruct b; [exact Hm | by intros w Hc]. Qed.

Lemma preserves_stop : preserves_consistency stop.
Proof.
  intros w Hc. pose proof (stop_outcome w) as H.
  destruct (stop w) as [[[]|e| |] w1]; try done.
  - destruct H as [-> _]. reflexivity.
  - by destruct H as [-> _].
Qed.

Lemma keeps_engine_deref : keeps_engine deref_sequence.
Proof.
  intros w. unfold deref_sequence.
  destruct (m_sequence (self w)) as [a|]; [|reflexivity].
  by destruct (objects w !! a).
Qed.

Lemma preserves_incrementCurPoint : preserves_consistency incrementCurPoint.
Proof.
  unfold incrementCurPoint. apply preserves_bind.
  - apply preserves_keeps, keeps_engine_deref.
  - intros [a s]. destruct (curPoint s =? numPoints s - 1).
    + apply preserves_stop.
    + apply preserves_keeps, keeps_engine_setCurPoint.
Qed.

Lemma preserves_arduinoBootFinished : preserves_consistency arduinoBootFinished.
Proof.
  unfold arduinoBootFinished. apply preserves_bind; [by intros w Hc|]. intros e.
  apply preserves_when. apply preserves_bind.
  { destruct (isStreamMode e); [by intros w Hc|].
    destruct (isImmediateMode e); by intros w Hc. }
  intros startPacket. apply preserves_bind; [apply preserves_keeps, keeps_engine_deref|].
  intros [a s]. apply preserves_bind; [by intros w Hc|]. intros _.
  apply preserves_bind; [apply preserves_keeps, keeps_engine_sequence_point|]. intros p.
  apply preserves_bind; [by intros w Hc|]. intros _.
  apply preserves_bind; [by intros w Hc|]. intros e'.
  apply preserves_when. apply preserves_bind; [by intros w Hc|]. intros _.
  apply preserves_incrementCurPoint.
Qed.






Lemma preserves_loop_body (c : Z) : preserves_consistency (loop_body c).
Proof.
  unfold loop_body. intros w Hc. unfold bind at 1, this.
  destruct (isStreamMode (self w) && (c =? chr "N")) eqn:HN.
  { revert w Hc HN.
    assert (Hm : preserves_consistency
              (update (set_hardwareQueueFull false) ;;;
               let* p := sequence_point in
               sendData (createSequencePacketForPoint p) ;;;
               incrementCurPoint ;;; remove_first ;;; ret false)); [|by intros w Hc _; apply Hm].
    apply preserves_bind.
    { intros w Hc. open_world w. unfold consistent, isStreaming in *. cbn in *.
      by destruct m_isStreamMode0, m_isImmediateMode0, m_paused0, m_hardwareQueueFull0,
                  m_sequence0, (isOpen m_serialPort0). }
    intros _. apply preserves_bind; [apply preserves_keeps, keeps_engine_sequence_point|].
    intros p. apply preserves_bind; [by intros w Hc|]. intros _.
    apply preserves_bind; [apply preserves_incrementCurPoint|]. intros _.
    apply preserves_bind; [by intros w Hc; open_world w|]. intros _. by intros w Hc. }
  destruct (isStreamMode (self w) && (c =? chr "F")) eqn:HF.
  { apply andb_true_iff in HF as [Hs _]. open_world w.
    unfold consistent, isStreaming, isStreamMode in *. run_cpp. cbn in *. subst.
    by destruct m_isImmediateMode0, m_paused0, m_hardwareQueueFull0, m_sequence0,
                (isOpen m_serialPort0). }
  destruct (c =? chr "D").
  - destruct (size (m_incomingData (self w)) <? 2); [exact Hc|].
    destruct (size (m_incomingData (self w)) <? 2 + _); exact Hc.
  - open_world w. exact Hc.
Qed.

Lemma preserves_decode_loop (fuel : nat) (partialPacket : bool) (w : World) :
  consistent (self w) = true ->
  match decode_loop fuel partialPacket w with
  | Some (Normal _, w') | Some (Thrown _, w') => consistent (self w') = true
  | _ => True
  end.
Proof.
  revert partialPacket w. induction fuel as [|fuel IH]; intros pp w Hc; [exact I|].
  rewrite decode_loop_S.
  destruct (m_incomingData (self w)) as [|c rest]; [exact Hc|].
  destruct pp; [exact Hc|].
  pose proof (preserves_loop_body c w Hc) as Hturn.
  destruct (loop_body c w) as [[pp'|e| |] w1]; try done.
  by apply IH.
Qed.

End Consistency.



(** X16. The slots keep the engine fields consistent as well: a decode
    pass over any bytes, if it ends by a return or an exception, and the
    expiry of the boot timer. *)
Theorem slots_preserve_consistency (w : World) (fuel : nat) (readAll : QByteArray) :
  consistent (self w) = true ->
  match handleReadyRead fuel readAll w with
  | Some (Normal _, w') | Some (Thrown _, w') => consistent (self w') = true
  | _ => True
  end /\
  match arduinoBoot_timeout w with
  | (Normal _, w') | (Thrown _, w') => consistent (self w') = true
  | _ => True
  end.
Proof.
  intros Hc. split.
  - unfold handleReadyRead, update. apply preserves_decode_loop.
    by open_world w.
  - revert w Hc. change (preserves_consistency arduinoBoot_timeout).
    unfold arduinoBoot_timeout. apply preserves_bind; [by intros w Hc|]. intros e.
    apply preserves_when. apply preserves_bind; [|intros _; apply preserves_arduinoBootFinished].
    intros w Hc. open_world w. unfold consistent, isStreaming in *. run_cpp. exact Hc.
Qed.

Lemma slots_preserve_consistency_sample :
  consistent (self (Sample.streaming 2 true true)) = true /\
  (match handleReadyRead 5 [chr "F"; chr "N"; 127] (Sample.streaming 2 true true) with
   | Some (Normal _, w') | Some (Thrown _, w') => consistent (self w') = true
   | _ => True
   end /\
   match arduinoBoot_timeout (Sample.streaming 2 true true) with
   | (Normal _, w') | (Thrown _, w') => consistent (self w') = true
   | _ => True
   end).
Proof.
  split; [reflexivity|].
  exact (slots_preserve_consistency (Sample.streaming 2 true true) 5
           [chr "F"; chr "N"; 127] eq_refl).
Defined.

(** ** Decode passes that end *)

Section Passes.

(** A turn on a byte that is not a frame start in the current mode. *)
Lemma loop_body_unknown (w : World) (c : Z) (rest : QByteArray) :
  m_incomingData (self w) = c :: rest ->
  c <> chr "D" ->
  m_isStreamMode (self w) = false \/ (c <> chr "N" /\ c <> chr "F") ->
  loop_body c w =
    (Normal false,
     {| self := set_incomingData rest (self w);
        objects := objects w;
        trace := trace w ++ [unknown c] |}).
Proof.
  intros Hbuf HD Hmode. open_world w. subst.
  unfold loop_body, unknown. run_cpp.
  destruct (Z.eqb_spec c (chr "D")); [done|].
  destruct Hmode as [-> | [HN HF]]; [reflexivity|].
  destruct (Z.eqb_spec c (chr "N")); [done|].
  destruct (Z.eqb_spec c (chr "F")); [done|].
  by destruct m_isStreamMode0.
Qed.

Lemma decode_loop_unknown_bytes (bs : QByteArray) (fuel : nat) (w : World) :
  m_isStreamMode (self w) = false ->
  m_incomingData (self w) = bs ->
  Forall (fun b => b <> chr "D") bs ->
  decode_loop (S (length bs) + fuel) false w =
    Some (Normal tt,
          {| self := set_incomingData [] (self w);
             objects := objects w;
             trace := trace w ++ map unknown bs |}).
Proof.
  revert w. induction bs as [|c rest IH]; intros w Hmode Hbuf Hall.
  - cbn [length Nat.add]. rewrite decode_loop_S, Hbuf. cbn [map].
    rewrite app_nil_r. open_world w. by subst.
  - apply Forall_cons in Hall as [Hc Hrest].
    cbn [length Nat.add]. rewrite decode_loop_S, Hbuf.
    rewrite (loop_body_unknown w c rest Hbuf Hc (or_introl Hmode)).
    rewrite IH; [|by open_world w|by open_world w|exact Hrest].
    cbn [self objects trace map]. rewrite <- app_assoc.
    by open_world w.
Qed.

Lemma decode_loop_stream_no_N (bs : QByteArray) (fuel : nat) (w : World) :
  m_isStreamMode (self w) = true ->
  m_incomingData (self w) = bs ->
  Forall (fun b => b <> chr "N" /\ b <> chr "D") bs ->
  decode_loop (S (length bs) + fuel) false w =
    Some (Normal tt,
          {| self := set_incomingData []
                       (set_hardwareQueueFull
                          (m_hardwareQueueFull (self w) || existsb is_F bs) (self w));
             objects := objects w;
             trace := trace w ++ map unknown (List.filter (fun b => negb (is_F b)) bs) |}).
Proof.
  revert w. induction bs as [|c rest IH]; intros w Hmode Hbuf Hall.
  - cbn [length Nat.add]. rewrite decode_loop_S, Hbuf. cbn [map List.filter existsb].
    rewrite app_nil_r, orb_false_r. open_world w. by subst.
  - apply Forall_cons in Hall as [[HN HD] Hrest].
    cbn [length Nat.add]. rewrite decode_loop_S, Hbuf.
    cbn [existsb List.filter]. unfold is_F at 1 3.
    destruct (Z.eqb_spec c (chr "F")) as [-> | HF].
    + rewrite (loop_body_F w rest Hmode Hbuf).
      rewrite IH; [|by open_world w|by open_world w|exact Hrest].
      cbn [negb]. open_world w. cbn. by rewrite orb_true_r.
    + rewrite (loop_body_unknown w c rest Hbuf HD (or_intror (conj HN HF))).
      rewrite IH; [|by open_world w|by open_world w|exact Hrest].
      cbn [negb map self objects trace]. rewrite <- app_assoc.
      open_world w. by cbn.
Qed.

End Passes.

(** X17. Outside stream mode the decoder knows no flow-control token:
    a pass over bytes none of which is 'D' emits one [streamError] per
    byte, in order, 'N' and 'F' included, empties the buffer, and
    changes nothing else; nothing is written to the port. *)
Theorem handleReadyRead_outside_stream_mode (w : World) (bs : QByteArray) (fuel : nat) :
  m_isStreamMode (self w) = false ->
  m_incomingData (self w) = [] ->
  Forall (fun b => b <> chr "D") bs ->
  handleReadyRead (S (length bs) + fuel) bs w =
    Some (Normal tt,
          {| self := self w;
             objects := objects w;
             trace := trace w ++ map unknown bs |}).
Proof.
  intros Hmode Hbuf Hall. unfold handleReadyRead, update.
  rewrite decode_loop_unknown_bytes; [|by open_world w|by open_world w; subst|exact Hall].
  open_world w. by subst.
Qed.

Lemma handleReadyRead_outside_stream_mode_sample :
  handleReadyRead 4 [chr "N"; chr "F"; 0] Sample.immediate =
    Some (Normal tt,
          {| self := self Sample.immediate;
             objects := objects Sample.immediate;
             trace := [unknown (chr "N"); unknown (chr "F"); unknown 0] |}).
Proof.
  exact (handleReadyRead_outside_stream_mode Sample.immediate [chr "N"; chr "F"; 0] 0
           eq_refl eq_refl
           ltac:(repeat constructor; discriminate)).
Defined.

(** X18. In stream mode, a pass over bytes none of which is 'N' or 'D'
    never writes to the port and never touches the sequence: each 'F'
    raises the queue-full flag, every other byte gives one
    [streamError], in order, and the buffer ends empty. *)
Theorem handleReadyRead_stream_without_N (w : World) (bs : QByteArray) (fuel : nat) :
  m_isStreamMode (self w) = true ->
  m_incomingData (self w) = [] ->
  Forall (fun b => b <> chr "N" /\ b <> chr "D") bs ->
  handleReadyRead (S (length bs) + fuel) bs w =
    Some (Normal tt,
          {| self := set_hardwareQueueFull
                       (m_hardwareQueueFull (self w) || existsb is_F bs) (self w);
             objects := objects w;
             trace := trace w ++ map unknown (List.filter (fun b => negb (is_F b)) bs) |}).
Proof.
  intros Hmode Hbuf Hall. unfold handleReadyRead, update.
  rewrite decode_loop_stream_no_N; [|by open_world w|by open_world w; subst|exact Hall].
  open_world w. by subst.
Qed.

Lemma handleReadyRead_stream_without_N_sample :
  handleReadyRead 4 [1; chr "F"; 2] (Sample.streaming 1 false false) =
    Some (Normal tt,
          {| self := self (Sample.streaming 1 false true);
             objects := objects (Sample.streaming 1 false false);
             trace := [unknown 1; unknown 2] |}).
Proof.
  exact (handleReadyRead_stream_without_N (Sample.streaming 1 false false) [1; chr "F"; 2] 0
           eq_refl eq_refl
           ltac:(repeat constructor; discriminate)).
Defined.

(** X19. While the buffer, with the new bytes appended, is headed by a
    debug frame that still misses bytes, a pass only buffers: it emits
    and writes nothing and ends with all bytes kept, in any mode. *)
Theorem handleReadyRead_buffers_incomplete_frame (w : World) (readAll : QByteArray) (fuel : nat) :
  incomplete_debug_frame (m_incomingData (self w) ++ readAll) = true ->
  handleReadyRead (S (S fuel)) readAll w =
    Some (Normal tt,
          {| self := set_incomingData (m_incomingData (self w) ++ readAll) (self w);
             objects := objects w;
             trace := trace w |}).
Proof.
  intros Hinc. unfold handleReadyRead, update.
  destruct (m_incomingData (self w) ++ readAll) as [|c rest] eqn:Hbuf; [discriminate|].
  rewrite decode_loop_S. cbn [self m_incomingData set_incomingData].
  rewrite (loop_body_incomplete_debug_frame _ c rest) by (by open_world w).
  rewrite decode_loop_S. reflexivity.
Qed.

Lemma handleReadyRead_buffers_incomplete_frame_sample :
  handleReadyRead 2 [chr "a"; chr "b"]
    {| self := set_incomingData [chr "D"; 3] (self Sample.idle);
       objects := objects Sample.idle; trace := [] |} =
    Some (Normal tt,
          {| self := set_incomingData [chr "D"; 3; chr "a"; chr "b"] (self Sample.idle);
             objects := objects Sample.idle; trace := [] |}).
Proof.
  exact (handleReadyRead_buffers_incomplete_frame
           {| self := set_incomingData [chr "D"; 3] (self Sample.idle);
              objects := objects Sample.idle; trace := [] |}
           [chr "a"; chr "b"] 0 eq_refl).
Defined.

(** X20. A decode pass that returns leaves the buffer empty or headed
    by a debug frame that still misses bytes. *)
Theorem handleReadyRead_end_state (w w' : World) (readAll : QByteArray) (fuel : nat) :
  handleReadyRead fuel readAll w = Some (Normal tt, w') ->
  m_incomingData (self w') = [] \/
  incomplete_debug_frame (m_incomingData (self w')) = true.
Proof.
  unfold handleReadyRead, update. apply decode_loop_end. discriminate.
Qed.

Lemma handleReadyRead_end_state_sample :
  handleReadyRead 3 [9; chr "D"; 3; chr "a"] Sample.idle =
    Some (Normal tt,
          {| self := set_incomingData [chr "D"; 3; chr "a"] (self Sample.idle);
             objects := objects Sample.idle;
             trace := [unknown 9] |}) /\
  ([chr "D"; 3; chr "a"] = [] \/ incomplete_debug_frame [chr "D"; 3; chr "a"] = true).
Proof.
  split; [reflexivity|].
  exact (handleReadyRead_end_state Sample.idle
           {| self := set_incomingData [chr "D"; 3; chr "a"] (self Sample.idle);
              objects := objects Sample.idle;
              trace := [unknown 9] |}
           [9; chr "D"; 3; chr "a"] 3 eq_refl).
Defined.

(** X21. A decode pass that starts on an empty buffer and receives no
    'D' always ends, within one turn per byte, in any mode and whatever
    state the engine and the sequences are in. *)
Theorem handleReadyRead_terminates_without_debug (w : World) (readAll : QByteArray) :
  m_incomingData (self w) = [] ->
  Forall (fun b => b <> chr "D") readAll ->
  exists r, handleReadyRead (S (length readAll)) readAll w = Some r.
Proof.
  intros Hbuf Hall. unfold handleReadyRead, update.
  apply decode_loop_terminates_without_debug; cbn [self m_incomingData set_incomingData];
    rewrite Hbuf; [reflexivity | exact Hall].
Qed.

Lemma handleReadyRead_terminates_without_debug_sample :
  exists r, handleReadyRead 4 [chr "N"; chr "F"; chr "N"] (Sample.streaming 2 false false) = Some r.
Proof.
  exact (handleReadyRead_terminates_without_debug (Sample.streaming 2 false false)
           [chr "N"; chr "F"; chr "N"] eq_refl
           ltac:(repeat constructor; discriminate)).
Defined.

Section Run.

Lemma currentPoint_of_valid_cursor (s : Sequence) :
  0 <= cursor s < numPoints s ->
  exists p, currentPoint s = Some p /\ points s !! Z.to_nat (cursor s) = Some p.
Proof.
  unfold numPoints, currentPoint. intros Hrange.
  destruct (Z.ltb_spec (cursor s) 0); [lia|].
  destruct (lookup_lt_is_Some_2 (points s) (Z.to_nat (cursor s)) ltac:(lia)) as [p Hp].
  eauto.
Qed.

(** From any valid cursor, as many 'N' as there are points left run the
    stream to its end. *)
Lemma decode_loop_stream_to_end (a : addr) (k : nat) :
  forall (w : World) (s : Sequence) (rest : QByteArray) (fuel : nat),
    Streaming w a s ->
    0 <= cursor s ->
    cursor s + Z.of_nat (S k) = numPoints s ->
    m_incomingData (self w) = replicate (S k) (chr "N") ++ rest ->
    decode_loop (S (S k) + fuel) false w =
      Some (Normal tt,
            {| self := idle_of (self w);
               objects := <[a := with_subscribed false (with_cursor (numPoints s - 1) s)]>
                            (objects w);
               trace := trace w ++ map sent (drop (Z.to_nat (cursor s)) (points s))
                                ++ [Write [chr "H"]; Emit streamStopped] |}).
Proof.
  induction k as [|k IH]; intros w s rest fuel H Hpos Hleft Hbuf.
  - destruct (currentPoint_of_valid_cursor s ltac:(lia)) as (p & Hp & Hlook).
    cbn [Nat.add replicate app] in *.
    rewrite (handleReadyRead_N w a s p (S fuel) rest H Hp Hbuf).
    replace (cursor s =? numPoints s - 1) with true by (symmetry; apply Z.eqb_eq; lia).
    rewrite decode_loop_empty by reflexivity.
    rewrite (drop_S _ _ _ Hlook), drop_ge by (unfold numPoints in Hleft; lia).
    replace (numPoints s - 1) with (cursor s) by lia. rewrite with_cursor_same.
    reflexivity.
  - destruct (currentPoint_of_valid_cursor s ltac:(lia)) as (p & Hp & Hlook).
    change (S (S (S k)) + fuel)%nat with (S (S (S k) + fuel)).
    change (replicate (S (S k)) (chr "N") ++ rest)
      with (chr "N" :: (replicate (S k) (chr "N") ++ rest)) in Hbuf.
    rewrite (handleReadyRead_N w a s p _ _ H Hp Hbuf).
    replace (cursor s =? numPoints s - 1) with false by (symmetry; apply Z.eqb_neq; lia).
    rewrite (IH _ (with_cursor (cursor s + 1) s) rest fuel).
    + rewrite (drop_S _ _ _ Hlook).
      cbn [self objects trace cursor with_cursor points map].
      replace (Z.to_nat (cursor s + 1)) with (S (Z.to_nat (cursor s))) by lia.
      rewrite insert_insert_eq, <- app_assoc.
      open_world w. reflexivity.
    + open_streaming H. open_world w. subst. repeat split. cbn. apply lookup_insert_eq.
    + cbn. lia.
    + unfold numPoints in *. cbn. lia.
    + reflexivity.
Qed.

End Run.

(** X22. Streaming runs to the end on acknowledgements alone. In a
    stream-mode session with an empty buffer and a valid cursor, a pass
    that receives as many 'N' as there are points from the cursor to the
    end writes exactly those points, each once and in order, then the
    stop packet, emits [streamStopped] and leaves the engine idle;
    whatever bytes followed the last 'N' are dropped. *)
Theorem handleReadyRead_streams_to_end
        (w : World) (a : addr) (s : Sequence) (k : nat) (rest : QByteArray) (fuel : nat) :
  Streaming w a s ->
  m_incomingData (self w) = [] ->
  0 <= cursor s ->
  cursor s + Z.of_nat (S k) = numPoints s ->
  handleReadyRead (S (S k) + fuel) (replicate (S k) (chr "N") ++ rest) w =
    Some (Normal tt,
          {| self := idle_of (self w);
             objects := <[a := with_subscribed false (with_cursor (numPoints s - 1) s)]>
                          (objects w);
             trace := trace w ++ map sent (drop (Z.to_nat (cursor s)) (points s))
                              ++ [Write [chr "H"]; Emit streamStopped] |}).
Proof.
  intros H Hbuf Hpos Hleft. unfold handleReadyRead, update.
  rewrite (decode_loop_stream_to_end a k _ s rest fuel).
  - by open_world w.
  - open_streaming H. open_world w. subst. by repeat split.
  - exact Hpos.
  - exact Hleft.
  - cbn. by rewrite Hbuf.
Qed.

Lemma handleReadyRead_streams_to_end_sample :
  handleReadyRead 3 [chr "N"; chr "N"; chr "F"] (Sample.streaming 1 false false) =
    Some (Normal tt,
          {| self := idle_of (self (Sample.streaming 1 false false));
             objects := <[7%nat := Sample.seq3 2]> (objects (Sample.streaming 1 false false));
             trace := [sent Sample.point1; sent Sample.point2;
                       Write [chr "H"]; Emit streamStopped] |}).
Proof.
  exact (handleReadyRead_streams_to_end (Sample.streaming 1 false false) 7%nat (Sample.seq3 1)
           1 [chr "F"] 0
           ltac:(repeat split; reflexivity) eq_refl ltac:(cbn; lia) eq_refl).
Defined.

(** X23. The boot gate only delays the start. Starting a session while
    the timer runs and then letting the timer expire leaves the same
    world, outcome included, as starting the same session on an engine
    whose timer is not running; this holds for [startStream] and for
    [startImmediate]. *)
Theorem boot_gate_only_delays (w : World) (a : addr) (s : Sequence) (fromCurrent : bool) :
  Ready w ->
  m_arduinoBoot (self w) = true ->
  objects w !! a = Some s ->
  let unarmed := {| self := set_arduinoBoot false (self w);
                    objects := objects w; trace := trace w |} in
  (startStream a fromCurrent ;;; arduinoBoot_timeout) w = startStream a fromCurrent unarmed /\
  (startImmediate a ;;; arduinoBoot_timeout) w = startImmediate a unarmed.
Proof.
  intros Hready Hboot Hobj unarmed.
  assert (Hready' : Ready unarmed) by (destruct Hready; open_world w; by split).
  split.
  - unfold bind at 1.
    rewrite (startStream_configures w a s fromCurrent Hready Hobj).
    rewrite (startStream_configures unarmed a s fromCurrent Hready' Hobj).
    rewrite Hboot. subst unarmed. open_world w. subst.
    unfold arduinoBoot_timeout, stream_engine. run_cpp. reflexivity.
  - unfold bind at 1.
    rewrite (startImmediate_configures w a s Hready Hobj).
    rewrite (startImmediate_configures unarmed a s Hready' Hobj).
    rewrite Hboot. subst unarmed. open_world w. subst.
    unfold arduinoBoot_timeout, immediate_engine. run_cpp. reflexivity.
Qed.

Lemma boot_gate_only_delays_sample :
  (startStream 7%nat false ;;; arduinoBoot_timeout) (Scenario.ready true 1) =
    startStream 7%nat false (Scenario.ready false 1).
Proof.
  exact (proj1 (boot_gate_only_delays (Scenario.ready true 1) 7%nat (Sample.seq3 1) false
                  ltac:(split; reflexivity) eq_refl eq_refl)).
Defined.
